(** * Laica smart scale: the advertisement decoder

    A shallow embedding of
    [custom_components/laica_smart_scale/laica_parser.py] and the properties
    its specification states about it.

    Conventions of the embedding.
    - A Python [int] is a [Z] (both are unbounded), so [&], [~] and [^] are
      [Z.land], [Z.lnot] and [Z.lxor].
    - A Python [bytes] value is a [list byte]; [bytes(iterable)] checks that
      every element is in [range(256)] and raises [ValueError] otherwise.
    - A Python [float] is modelled by the exact rational it stands for.  The
      only floats of the parser are [raw_masked / 100] and [n / 10] with
      [0 <= raw_masked < 2^18]: the first quotient is either an exact binary
      half ([q + 0.5], representable) or at least [1/100] away from any half,
      so [round] of the double and [round] of the rational agree; the second
      quotient is only compared with the integers [5] and [400] and read back,
      and correct rounding is monotone and fixes integers.
    - A Python [dict] is an association list in insertion order.
    - Exceptions are an error monad: a function that can raise returns a
      [result]. *)

From Stdlib Require Import ZArith QArith Qround Qabs List String Ascii Bool.
From Stdlib Require Import Lia Lqa Sorted.
From Stdlib Require Import HexadecimalString HexadecimalN.
From Stdlib Require DecimalString.
From Stdlib.Strings Require Import Byte.
Import ListNotations.

Local Open Scope string_scope.
Local Open Scope Z_scope.

(** ** The fragment of the Python runtime that the parser uses *)

Module Py.

Inductive exn : Type :=
| IndexError
| ValueError.

Inductive result (A : Type) : Type :=
| Ok (a : A)
| Raise (e : exn).
Arguments Ok {A} a.
Arguments Raise {A} e.

Definition bind {A B : Type} (c : result A) (k : A -> result B) : result B :=
  match c with
  | Ok a => k a
  | Raise e => Raise e
  end.

Inductive PyVal : Type :=
| VNone
| VStr (s : string)
| VInt (z : Z)
| VBool (b : bool)
| VFloat (q : Q).

(** [dict[str, Any]], in insertion order. *)
Definition dict : Type := list (string * PyVal).

Fixpoint dict_get (d : dict) (k : string) : option PyVal :=
  match d with
  | [] => None
  | (k', v) :: d' => if String.eqb k k' then Some v else dict_get d' k
  end.

(** [d[k] = v]: an existing key keeps its place, a new one goes last. *)
Fixpoint dict_set (k : string) (v : PyVal) (d : dict) : dict :=
  match d with
  | [] => [(k, v)]
  | (k', v') :: d' =>
      if String.eqb k k' then (k, v) :: d' else (k', v') :: dict_set k v d'
  end.

(** [d.update(u)] *)
Definition dict_update (d u : dict) : dict :=
  fold_left (fun acc kv => dict_set (fst kv) (snd kv) acc) u d.

Definition bytes : Type := list byte.

Definition byte_val (b : byte) : Z := Z.of_N (Byte.to_N b).

Definition len {A : Type} (l : list A) : Z := Z.of_nat (List.length l).

(** One element of [bytes(...)]: an int outside [range(256)] is a
    [ValueError]. *)
Definition byte_of_int (z : Z) : result byte :=
  if z <? 0 then Raise ValueError
  else match Byte.of_N (Z.to_N z) with
       | Some b => Ok b
       | None => Raise ValueError
       end.

Fixpoint py_bytes (l : list Z) : result bytes :=
  match l with
  | [] => Ok []
  | z :: l' =>
      bind (byte_of_int z) (fun b =>
      bind (py_bytes l') (fun bs => Ok (b :: bs)))
  end.

(** [s[i]]: a negative index counts from the end, an index out of range is
    an [IndexError]. *)
Definition py_getitem {A : Type} (s : list A) (i : Z) : result A :=
  let j := if i <? 0 then len s + i else i in
  if j <? 0 then Raise IndexError
  else match nth_error s (Z.to_nat j) with
       | Some x => Ok x
       | None => Raise IndexError
       end.

(** [s[-1] = x] *)
Fixpoint set_last {A : Type} (s : list A) (x : A) : result (list A) :=
  match s with
  | [] => Raise IndexError
  | [_] => Ok [x]
  | y :: s' => bind (set_last s' x) (fun t => Ok (y :: t))
  end.

(** A slice bound: negative bounds count from the end, and every bound is
    clamped into [0, len]. *)
Definition slice_bound (n i : Z) : Z :=
  if i <? 0 then Z.max 0 (n + i) else Z.min i n.

(** [s[lo:hi]]; a slice never raises. *)
Definition py_slice {A : Type} (s : list A) (lo hi : Z) : list A :=
  let a := slice_bound (len s) lo in
  let b := slice_bound (len s) hi in
  firstn (Z.to_nat (b - a)) (skipn (Z.to_nat a) s).

(** [s.append(x)] *)
Definition append {A : Type} (s : list A) (x : A) : list A :=
  (s ++ [x])%list.

(** [enumerate(s)], counting from [i]. *)
Fixpoint enumerate_from {A : Type} (i : Z) (s : list A) : list (Z * A) :=
  match s with
  | [] => []
  | x :: s' => (i, x) :: enumerate_from (i + 1) s'
  end.

Definition enumerate {A : Type} (s : list A) : list (Z * A) :=
  enumerate_from 0 s.

(** [int.from_bytes(b, byteorder="big", signed=False)] *)
Definition int_from_bytes_big (b : bytes) : Z :=
  fold_left (fun acc x => acc * 256 + byte_val x) b 0.

(** Floats, see the conventions above. *)
Definition float : Type := Q.

(** [a / b] on ints (the divisors of the parser are the literals 100
    and 10). *)
Definition truediv (a b : Z) : float := (inject_Z a / inject_Z b)%Q.

(** [round(x)] with one argument: the nearest integer, a tie going to the
    even neighbour. *)
Definition round (x : float) : Z :=
  let f := Qfloor x in
  match Qcompare (x - inject_Z f) (1 # 2) with
  | Lt => f
  | Gt => f + 1
  | Eq => if Z.even f then f else f + 1
  end.

Fixpoint zeros (n : nat) : string :=
  match n with
  | O => ""
  | S n' => String "0" (zeros n')
  end.

(** Lower-case hexadecimal digits of [|z|], ["0"] for zero. *)
Definition hex_digits (z : Z) : string :=
  NilEmpty.string_of_uint (N.to_hex_uint (Z.abs_N z)).

(** [format(z, "x")] *)
Definition format_x (z : Z) : string :=
  (if z <? 0 then "-" else "") ++ hex_digits z.

(** [format(z, "0{w}x")]: zeros go between the sign and the digits up to
    the width [w]; a negative width is not a format specification and is a
    [ValueError]. *)
Definition format_0wx (w z : Z) : result string :=
  if w <? 0 then Raise ValueError
  else
    let sign := if z <? 0 then "-" else "" in
    let ds := hex_digits z in
    let pad := (Z.to_nat w - (String.length sign + String.length ds))%nat in
    Ok (sign ++ zeros pad ++ ds).

(** [b.hex()] *)
Fixpoint bytes_hex (b : bytes) : string :=
  match b with
  | [] => ""
  | x :: b' =>
      zeros (2 - String.length (hex_digits (byte_val x)))%nat
        ++ hex_digits (byte_val x) ++ bytes_hex b'
  end.

End Py.

Import Py.

Declare Scope py_scope.
Delimit Scope py_scope with py.
Notation "x <- c ;; k" := (bind c (fun x => k))
  (at level 61, c at next level, right associativity) : py_scope.
Notation "' p <- c ;; k" := (bind c (fun x => let p := x in k))
  (at level 61, p pattern, c at next level, right associativity) : py_scope.
Local Open Scope py_scope.

(** ** laica_parser.py *)

Definition PACKET_TYPE_WEIGHT : Z := 0x0D.
Definition PACKET_TYPE_IMPEDANCE : Z := 0x06.

Definition KNOWN_TYPE_OFFSET : Z := 10.
Definition KNOWN_VALUE_OFFSET : Z := 6.

Definition WEIGHT_VALUE_MASK : Z := 0x3FFFF.
Definition WEIGHT_STABLE_BIT : Z := 0x80000000.

(** The first line of [_decrypt_to_int]:
    [decrypted = bytes((b ^ 0xA0) for b in data)]. *)
Definition decrypted (data : bytes) : result bytes :=
  py_bytes (map (fun b => Z.lxor (byte_val b) 0xA0) data).

Definition _decrypt_to_int (data : bytes) : result Z :=
  d <- decrypted data ;;
  Ok (int_from_bytes_big d).

Record LaicaParsedPacket : Type := {
  kind : string;
  type_byte_offset : Z;
  value_offset : Z;
  value_length : Z;
  weight_kg : option float;
  impedance_ohm : option Z;
  is_stable : option bool;
  raw_flags : option Z;
  raw_decrypted_int : option Z;
  raw_decrypted_hex : option string;
  notes : option string
}.

Record LaicaParseReport : Type := {
  payload_hex : string;
  payload_len : Z;
  candidate_type_offsets : list Z;
  attempts : list dict;
  parsed : option LaicaParsedPacket
}.

Definition _attempt_parse (payload : bytes) (kind : string)
    (type_offset value_offset value_length : Z) (scheme : string)
    : result (option LaicaParsedPacket * dict) :=
  b <- py_getitem payload type_offset ;;
  let pkt_type := byte_val b in
  type_byte <- format_0wx 2 pkt_type ;;
  let attempt : dict :=
    [ ("kind", VStr kind);
      ("type_offset", VInt type_offset);
      ("type_byte", VStr ("0x" ++ type_byte));
      ("value_offset", VInt value_offset);
      ("value_length", VInt value_length);
      ("scheme", VStr scheme);
      ("status", VStr "rejected");
      ("reason", VNone) ] in
  if (value_offset <? 0) || (value_offset + value_length >? len payload) then
    let attempt :=
      dict_set "reason" (VStr "value_bytes_out_of_range") attempt in
    Ok (None, attempt)
  else
    raw <- _decrypt_to_int
             (py_slice payload value_offset (value_offset + value_length)) ;;
    if String.eqb kind "weight" then
      let raw_masked := Z.land raw WEIGHT_VALUE_MASK in
      let raw_flags := Z.land raw (Z.lnot WEIGHT_VALUE_MASK) in
      let is_stable := negb (Z.land raw WEIGHT_STABLE_BIT =? 0) in
      let weight_kg := truediv (round (truediv raw_masked 100)) 10 in
      raw_hex <- format_0wx (value_length * 2) raw ;;
      let attempt := dict_update attempt
        [ ("raw_decrypted_int", VInt raw);
          ("raw_decrypted_hex", VStr ("0x" ++ raw_hex));
          ("raw_masked", VInt raw_masked);
          ("raw_flags", VInt raw_flags);
          ("is_stable", VBool is_stable);
          ("weight_kg", VFloat weight_kg) ] in
      if negb (Qle_bool (inject_Z 5) weight_kg
               && Qle_bool weight_kg (inject_Z 400)) then
        let attempt := dict_set "reason" (VStr "weight_out_of_range") attempt in
        Ok (None, attempt)
      else
        let attempt := dict_set "status" (VStr "accepted") attempt in
        raw_hex' <- format_0wx (value_length * 2) raw ;;
        Ok (Some {| kind := "weight";
                    type_byte_offset := type_offset;
                    value_offset := value_offset;
                    value_length := value_length;
                    weight_kg := Some weight_kg;
                    impedance_ohm := None;
                    is_stable := Some is_stable;
                    raw_flags := Some raw_flags;
                    raw_decrypted_int := Some raw;
                    raw_decrypted_hex := Some ("0x" ++ raw_hex');
                    notes := Some ("raw_flags=0x" ++ format_x raw_flags) |},
            attempt)
    else if String.eqb kind "impedance" then
      let impedance := raw in
      let clamped := Z.max 430 (Z.min 630 impedance) in
      raw_hex <- format_0wx (value_length * 2) raw ;;
      let attempt := dict_update attempt
        [ ("raw_decrypted_int", VInt raw);
          ("raw_decrypted_hex", VStr ("0x" ++ raw_hex));
          ("impedance_ohm_raw", VInt impedance);
          ("impedance_ohm", VInt clamped);
          ("clamped", VBool (negb (clamped =? impedance))) ] in
      if negb ((200 <=? impedance) && (impedance <=? 1200)) then
        let attempt :=
          dict_set "reason" (VStr "impedance_out_of_range") attempt in
        Ok (None, attempt)
      else
        let attempt := dict_set "status" (VStr "accepted") attempt in
        let notes := if negb (clamped =? impedance)
                     then Some "clamped_to_[430,630]" else None in
        raw_hex' <- format_0wx (value_length * 2) raw ;;
        Ok (Some {| kind := "impedance";
                    type_byte_offset := type_offset;
                    value_offset := value_offset;
                    value_length := value_length;
                    weight_kg := None;
                    impedance_ohm := Some clamped;
                    is_stable := None;
                    raw_flags := None;
                    raw_decrypted_int := Some raw;
                    raw_decrypted_hex := Some ("0x" ++ raw_hex');
                    notes := notes |},
            attempt)
    else
      let attempt := dict_set "reason" (VStr "unknown_kind") attempt in
      Ok (None, attempt).

(** The generator of [candidate_offsets]:
    [idx for idx, b in enumerate(payload)
     if b in (PACKET_TYPE_IMPEDANCE, PACKET_TYPE_WEIGHT)]. *)
Definition is_type_marker (b : byte) : bool :=
  (byte_val b =? PACKET_TYPE_IMPEDANCE) || (byte_val b =? PACKET_TYPE_WEIGHT).

Definition candidate_offsets (payload : bytes) : list Z :=
  map fst (filter (fun ib => is_type_marker (snd ib)) (enumerate payload)).

Definition parse_laica_manufacturer_data (payload : bytes)
    : result LaicaParseReport :=
  let candidate_offsets := candidate_offsets payload in
  let attempts : list dict := [] in
  let parsed : option LaicaParsedPacket := None in
  '(attempts, parsed) <-
    (if len payload <=? KNOWN_TYPE_OFFSET then
       let attempts := append attempts
           [ ("scheme", VStr "known_layout");
             ("status", VStr "rejected");
             ("reason", VStr "payload_too_short");
             ("payload_len", VInt (len payload)) ] in
       Ok (attempts, parsed)
     else
       b <- py_getitem payload KNOWN_TYPE_OFFSET ;;
       let pkt_type := byte_val b in
       type_byte <- format_0wx 2 pkt_type ;;
       let attempts := append attempts
           [ ("scheme", VStr "known_layout");
             ("type_offset", VInt KNOWN_TYPE_OFFSET);
             ("type_byte", VStr ("0x" ++ type_byte));
             ("status", VStr "rejected");
             ("reason", VNone) ] in
       if pkt_type =? PACKET_TYPE_WEIGHT then
         '(parsed, attempt) <-
           _attempt_parse payload "weight" KNOWN_TYPE_OFFSET
             KNOWN_VALUE_OFFSET 4 "known_layout" ;;
         attempts <- set_last attempts attempt ;;
         Ok (attempts, parsed)
       else if pkt_type =? PACKET_TYPE_IMPEDANCE then
         '(parsed, attempt) <-
           _attempt_parse payload "impedance" KNOWN_TYPE_OFFSET
             KNOWN_VALUE_OFFSET 2 "known_layout" ;;
         attempts <- set_last attempts attempt ;;
         Ok (attempts, parsed)
       else
         last <- py_getitem attempts (-1) ;;
         attempts <- set_last attempts
           (dict_set "reason" (VStr "unknown_type_byte_at_known_offset")
              last) ;;
         Ok (attempts, parsed)) ;;
  Ok {| payload_hex := bytes_hex payload;
        payload_len := len payload;
        candidate_type_offsets := candidate_offsets;
        attempts := attempts;
        parsed := parsed |}.

(** ** scripts/in_vitro_test.py: the reference vector *)

(** [bytes.find]: the lowest index at which [m] occurs in [s], or [-1]. *)
Fixpoint starts_with (m s : bytes) : bool :=
  match m, s with
  | [], _ => true
  | _ :: _, [] => false
  | x :: m', y :: s' => (byte_val x =? byte_val y) && starts_with m' s'
  end.

Fixpoint find_from (i : Z) (m s : bytes) : Z :=
  if starts_with m s then i
  else match s with
       | [] => -1
       | _ :: s' => find_from (i + 1) m s'
       end.

Definition _extract_laica_payload_from_hci_event (hci_event : bytes)
    : result bytes :=
  let marker := [ x0f; xff; xac; xa0 ] in
  let idx := find_from 0 marker hci_event in
  if idx =? -1 then Raise ValueError
  else
    let payload_start := idx + len marker in
    let payload_len := 12 in
    let payload :=
      py_slice hci_event payload_start (payload_start + payload_len) in
    if negb (len payload =? payload_len) then Raise ValueError
    else Ok payload.

(** [bytes.fromhex(data_string)] of [main]. *)
Definition hci_event : bytes :=
  [ x04; x3e; x2b; x02; x01; x03; x00; xa0; x2b; xbe; x5e; x91; xa0; x1f;
    x02; x01; x04; x03; x03; xb0; xff; x0f; xff; xac; xa0; xa0; x2b; xbe;
    x5e; x91; xa0; xa0; x2c; x92; x14; x0d; xbf; x07; x09; x41; x41; x41;
    x30; x30; x32; xd9 ].

(** The manufacturer payload of the ble_monitor test vector used by
    [scripts/in_vitro_test.py]. *)
Definition reference_payload : bytes :=
  [ xa0; x2b; xbe; x5e; x91; xa0; xa0; x2c; x92; x14; x0d; xbf ].

(** ** Sample payloads *)

(** An impedance packet whose raw reading is 300 ohm: accepted by the gate,
    below the clamping window. *)
Definition impedance_300_payload : bytes :=
  [ xa0; x2b; xbe; x5e; x91; xa0; xa1; x8c; x92; x14; x06; xbf ].

(** A weight packet whose magnitude field is 0: 0.0 kg, below the window. *)
Definition weight_zero_payload : bytes :=
  [ xa0; x2b; xbe; x5e; x91; xa0; xa0; xa0; xa0; xa0; x0d; xbf ].

(** The reference weight with the stable bit set: [raw = 0x800032b4]. *)
Definition stable_weight_payload : bytes :=
  [ xa0; x2b; xbe; x5e; x91; xa0; x20; xa0; x92; x14; x0d; xbf ].

(** ** More of the runtime: [bytes.fromhex], [dict.get], [asdict] *)

(** ASCII whitespace, which [bytes.fromhex] skips between bytes. *)
Definition is_ascii_space (c : ascii) : bool :=
  let n := Z.of_N (N_of_ascii c) in
  (n =? 32) || ((9 <=? n) && (n <=? 13)).

Definition hex_digit_val (c : ascii) : option Z :=
  let n := Z.of_N (N_of_ascii c) in
  if (48 <=? n) && (n <=? 57) then Some (n - 48)
  else if (97 <=? n) && (n <=? 102) then Some (n - 87)
  else if (65 <=? n) && (n <=? 70) then Some (n - 55)
  else None.

(** [bytes.fromhex(s)]: two hexadecimal digits per byte, whitespace allowed
    between bytes, anything else is a [ValueError]. *)
Fixpoint fromhex (s : string) : result bytes :=
  match s with
  | EmptyString => Ok []
  | String c s' =>
      if is_ascii_space c then fromhex s'
      else
        match hex_digit_val c, s' with
        | Some hi, String d s'' =>
            match hex_digit_val d with
            | Some lo =>
                b <- byte_of_int (hi * 16 + lo) ;;
                rest <- fromhex s'' ;;
                Ok (b :: rest)
            | None => Raise ValueError
            end
        | _, _ => Raise ValueError
        end
  end.

(** [d.get(k)]: [None] for a missing key. *)
Definition dict_get_or_none (d : dict) (k : string) : PyVal :=
  match dict_get d k with
  | Some v => v
  | None => VNone
  end.

Definition opt_val {A : Type} (f : A -> PyVal) (o : option A) : PyVal :=
  match o with
  | Some a => f a
  | None => VNone
  end.

(** [dataclasses.asdict] on a [LaicaParsedPacket]: its fields, in order. *)
Definition asdict (p : LaicaParsedPacket) : dict :=
  [ ("kind", VStr (kind p));
    ("type_byte_offset", VInt (type_byte_offset p));
    ("value_offset", VInt (value_offset p));
    ("value_length", VInt (value_length p));
    ("weight_kg", opt_val VFloat (weight_kg p));
    ("impedance_ohm", opt_val VInt (impedance_ohm p));
    ("is_stable", opt_val VBool (is_stable p));
    ("raw_flags", opt_val VInt (raw_flags p));
    ("raw_decrypted_int", opt_val VInt (raw_decrypted_int p));
    ("raw_decrypted_hex", opt_val VStr (raw_decrypted_hex p));
    ("notes", opt_val VStr (notes p)) ].

(** ** const.py *)

Definition DOMAIN : string := "laica_smart_scale".

Definition MANUFACTURER_ID : Z := 0xA0AC.

(** A UTC [datetime] is its number of microseconds since the epoch and a
    [timedelta] a number of microseconds, so that [-] and [<=] on them are
    those of [Z]; this is [timedelta(hours=24)]. *)
Definition DEFAULT_AVAILABILITY_WINDOW : Z := 24 * 3600 * 1000000.

Definition update_signal (entry_id : string) : string :=
  DOMAIN ++ "_update_" ++ entry_id.

(** ** __init__.py: the advertisement callback

    [entry_data] is the dict [hass.data[DOMAIN][entry.entry_id]]; after
    [async_setup_entry] it has the four keys below (and the unsubscribe
    handle, which the callback does not touch), so it is a record of them.
    The callback mutates that one object, and the sensors read the same
    object back through [hass.data]: the state returned by the callback is
    the state the sensors see.  The logging calls are left out: they read the
    state and write nothing. *)

(** The attributes of [BluetoothServiceInfoBleak] that the integration
    reads; [getattr(..., None)] gives [None] for a missing one. *)
Record ServiceInfo : Type := {
  address : string;
  name : string;
  rssi : Z;
  source : option string;
  connectable : option bool;
  service_uuids : list string;
  service_data : list (string * bytes);
  manufacturer_data : list (Z * bytes)
}.

(** The value of [_service_info_for_diagnostics]. *)
Record ServiceInfoSnapshot : Type := {
  snap_address : string;
  snap_name : string;
  snap_rssi : Z;
  snap_source : option string;
  snap_connectable : option bool;
  snap_service_uuids : list string;
  snap_service_data : list (string * string);
  snap_manufacturer_data : list (string * (Z * string))
}.

(** The dict stored under [DATA_LAST_PARSE_REPORT]. *)
Record LastParseReport : Type := {
  lpr_payload_len : Z;
  lpr_payload_hex : string;
  lpr_candidate_type_offsets : list Z;
  lpr_attempts : list dict;
  lpr_parsed : option dict
}.

Record EntryData : Type := {
  last_service_info : option ServiceInfoSnapshot;
  last_seen : option Z;
  last_parse_report : option LastParseReport;
  last_measurements : dict
}.

Definition _as_hex (data : bytes) : string := bytes_hex data.

(** [manufacturer_data.get(k)] on a dict keyed by company id. *)
Fixpoint manufacturer_get (d : list (Z * bytes)) (k : Z) : option bytes :=
  match d with
  | [] => None
  | (k', v) :: d' => if k =? k' then Some v else manufacturer_get d' k
  end.

Definition _service_info_for_diagnostics (service_info : ServiceInfo)
    : ServiceInfoSnapshot :=
  {| snap_address := address service_info;
     snap_name := name service_info;
     snap_rssi := rssi service_info;
     snap_source := source service_info;
     snap_connectable := connectable service_info;
     snap_service_uuids := service_uuids service_info;
     snap_service_data :=
       map (fun kv => (fst kv, _as_hex (snd kv))) (service_data service_info);
     snap_manufacturer_data :=
       map (fun kv =>
              (DecimalString.NilZero.string_of_int
                 (Z.to_int (fst kv)),
               (len (snd kv), _as_hex (snd kv))))
           (manufacturer_data service_info) |}.

(** What [async_setup_entry] does to [entry_data] before it registers the
    callback; [existing] is the dict already stored for the entry, if any:
    its measurements are kept ([setdefault]), the other keys are reset. *)
Definition setup_entry_data (existing : option EntryData) : EntryData :=
  {| last_service_info := None;
     last_seen := None;
     last_parse_report := None;
     last_measurements :=
       match existing with
       | Some e => last_measurements e
       | None => []
       end |}.

(** The part of the callback under [# Store latest measurements]. *)
Definition store_measurements (isoformat : Z -> string) (measurements : dict)
    (report : LaicaParseReport) (now : Z) : dict :=
  match parsed report with
  | None => measurements
  | Some p =>
      let measurements :=
        match weight_kg p with
        | None => measurements
        | Some w =>
            let measurements :=
              dict_set "weight_kg_raw" (VFloat w) measurements in
            let measurements :=
              dict_set "weight_is_stable" (opt_val VBool (is_stable p))
                measurements in
            let measurements :=
              dict_set "weight_raw_flags"
                (match raw_flags p with
                 | None => VNone
                 | Some f => VStr ("0x" ++ format_x f)
                 end) measurements in
            match is_stable p with
            | Some true => dict_set "weight_kg" (VFloat w) measurements
            | _ => measurements
            end
        end in
      let measurements :=
        match impedance_ohm p with
        | None => measurements
        | Some z => dict_set "impedance_ohm" (VInt z) measurements
        end in
      let measurements :=
        dict_set "last_packet_kind" (VStr (kind p)) measurements in
      let measurements :=
        dict_set "last_packet_type_offset" (VInt (type_byte_offset p))
          measurements in
      dict_set "last_packet_ts" (VStr (isoformat now)) measurements
  end.

(** [_async_bluetooth_callback]; [now] is [dt_util.utcnow()] and the
    boolean tells whether [async_dispatcher_send] was reached. *)
Definition _async_bluetooth_callback (isoformat : Z -> string)
    (entry_data : EntryData) (service_info : ServiceInfo) (now : Z)
    : result (EntryData * bool) :=
  match manufacturer_get (manufacturer_data service_info) MANUFACTURER_ID with
  | None => Ok (entry_data, false)
  | Some payload =>
      report <- parse_laica_manufacturer_data payload ;;
      Ok ({| last_service_info :=
               Some (_service_info_for_diagnostics service_info);
             last_seen := Some now;
             last_parse_report :=
               Some {| lpr_payload_len := payload_len report;
                       lpr_payload_hex := payload_hex report;
                       lpr_candidate_type_offsets :=
                         candidate_type_offsets report;
                       lpr_attempts := attempts report;
                       lpr_parsed := option_map asdict (parsed report) |};
             last_measurements :=
               store_measurements isoformat (last_measurements entry_data)
                 report now |},
          true)
  end.

(** ** sensor.py: what the entities read

    [entry_data] is [hass.data.get(DOMAIN, {}).get(entry_id, {})]: [None]
    stands for the empty dict of a missing entry. *)

Definition entry_measurements (entry_data : option EntryData) : dict :=
  match entry_data with
  | Some e => last_measurements e
  | None => []
  end.

(** [LaicaSensorBase.available], at time [utcnow]. *)
Definition available (entry_data : option EntryData) (utcnow : Z) : bool :=
  match entry_data with
  | Some e =>
      match last_seen e with
      | None => false
      | Some t => utcnow - t <=? DEFAULT_AVAILABILITY_WINDOW
      end
  | None => false
  end.

(** [LaicaWeightSensor.native_value] *)
Definition weight_native_value (entry_data : option EntryData) : PyVal :=
  dict_get_or_none (entry_measurements entry_data) "weight_kg".

(** [LaicaImpedanceSensor.native_value] *)
Definition impedance_native_value (entry_data : option EntryData) : PyVal :=
  dict_get_or_none (entry_measurements entry_data) "impedance_ohm".

Definition is_none (v : PyVal) : bool :=
  match v with
  | VNone => true
  | _ => false
  end.

(** [LaicaWeightSensor.extra_state_attributes] *)
Definition extra_state_attributes (entry_data : option EntryData)
    : option dict :=
  let measurements := entry_measurements entry_data in
  let attrs :=
    [ ("raw_weight_kg", dict_get_or_none measurements "weight_kg_raw");
      ("is_stable", dict_get_or_none measurements "weight_is_stable");
      ("raw_flags", dict_get_or_none measurements "weight_raw_flags") ] in
  match filter (fun kv => negb (is_none (snd kv))) attrs with
  | [] => None
  | d => Some d
  end.

(** An advertisement that carries [payload] as Laica manufacturer data. *)
Definition sample_service_info (payload : bytes) : ServiceInfo :=
  {| address := "AA:BB:CC:DD:EE:FF";
     name := "AAA002";
     rssi := -60;
     source := None;
     connectable := Some false;
     service_uuids := [];
     service_data := [];
     manufacturer_data := [ (0xA0AC, payload) ] |}.

(** ** The states of an entry

    An entry is set up, possibly again over what an earlier setup left, and
    then receives advertisements. *)
Inductive reachable (isoformat : Z -> string) : EntryData -> Prop :=
| reach_setup :
    reachable isoformat (setup_entry_data None)
| reach_setup_again e :
    reachable isoformat e ->
    reachable isoformat (setup_entry_data (Some e))
| reach_advertisement e service_info now e' dispatched :
    reachable isoformat e ->
    _async_bluetooth_callback isoformat e service_info now
    = Ok (e', dispatched) ->
    reachable isoformat e'.

(** The measurements that the two value sensors read are in range. *)
Definition measurements_in_range (m : dict) : Prop :=
  (forall v, dict_get m "weight_kg" = Some v ->
     exists w, v = VFloat w /\ (5 <= w <= 2621 # 10)%Q)
  /\ (forall v, dict_get m "impedance_ohm" = Some v ->
        exists z, v = VInt z /\ 430 <= z <= 630).

(** ** Definitions used by the proofs *)

(** The byte [b ^ 0xA0], as [bytes(...)] stores it. *)
Definition xor_a0 (b : byte) : byte :=
  match Byte.of_N (N.lxor (Byte.to_N b) 0xA0) with
  | Some c => c
  | None => b
  end.

(** ** Closed forms of the known-layout outcomes

    What [_attempt_parse] returns on the two paths that
    [parse_laica_manufacturer_data] dispatches to, written out once so that
    every property below can be read off it.  [tb] and [hex] are the
    formatted type byte and raw value. *)

Definition weight_kg_of (raw : Z) : float :=
  truediv (round (truediv (Z.land raw WEIGHT_VALUE_MASK) 100)) 10.

Definition weight_plausible (raw : Z) : bool :=
  Qle_bool (inject_Z 5) (weight_kg_of raw)
  && Qle_bool (weight_kg_of raw) (inject_Z 400).

Definition weight_attempt (tb hex : string) (raw : Z) (status : string)
    (reason : PyVal) : dict :=
  [ ("kind", VStr "weight");
    ("type_offset", VInt 10);
    ("type_byte", VStr ("0x" ++ tb));
    ("value_offset", VInt 6);
    ("value_length", VInt 4);
    ("scheme", VStr "known_layout");
    ("status", VStr status);
    ("reason", reason);
    ("raw_decrypted_int", VInt raw);
    ("raw_decrypted_hex", VStr ("0x" ++ hex));
    ("raw_masked", VInt (Z.land raw WEIGHT_VALUE_MASK));
    ("raw_flags", VInt (Z.land raw (Z.lnot WEIGHT_VALUE_MASK)));
    ("is_stable", VBool (negb (Z.land raw WEIGHT_STABLE_BIT =? 0)));
    ("weight_kg", VFloat (weight_kg_of raw)) ].

Definition weight_packet (hex : string) (raw : Z) : LaicaParsedPacket :=
  {| kind := "weight";
     type_byte_offset := 10;
     value_offset := 6;
     value_length := 4;
     weight_kg := Some (weight_kg_of raw);
     impedance_ohm := None;
     is_stable := Some (negb (Z.land raw WEIGHT_STABLE_BIT =? 0));
     raw_flags := Some (Z.land raw (Z.lnot WEIGHT_VALUE_MASK));
     raw_decrypted_int := Some raw;
     raw_decrypted_hex := Some ("0x" ++ hex);
     notes :=
       Some ("raw_flags=0x" ++ format_x (Z.land raw (Z.lnot WEIGHT_VALUE_MASK)))
  |}.

Definition weight_outcome (tb hex : string) (raw : Z)
    : option LaicaParsedPacket * dict :=
  if weight_plausible raw
  then (Some (weight_packet hex raw),
        weight_attempt tb hex raw "accepted" VNone)
  else (None,
        weight_attempt tb hex raw "rejected" (VStr "weight_out_of_range")).

Definition impedance_clamped (raw : Z) : Z := Z.max 430 (Z.min 630 raw).

Definition impedance_plausible (raw : Z) : bool :=
  (200 <=? raw) && (raw <=? 1200).

Definition impedance_attempt (tb hex : string) (raw : Z) (status : string)
    (reason : PyVal) : dict :=
  [ ("kind", VStr "impedance");
    ("type_offset", VInt 10);
    ("type_byte", VStr ("0x" ++ tb));
    ("value_offset", VInt 6);
    ("value_length", VInt 2);
    ("scheme", VStr "known_layout");
    ("status", VStr status);
    ("reason", reason);
    ("raw_decrypted_int", VInt raw);
    ("raw_decrypted_hex", VStr ("0x" ++ hex));
    ("impedance_ohm_raw", VInt raw);
    ("impedance_ohm", VInt (impedance_clamped raw));
    ("clamped", VBool (negb (impedance_clamped raw =? raw))) ].

Definition impedance_packet (hex : string) (raw : Z) : LaicaParsedPacket :=
  {| kind := "impedance";
     type_byte_offset := 10;
     value_offset := 6;
     value_length := 2;
     weight_kg := None;
     impedance_ohm := Some (impedance_clamped raw);
     is_stable := None;
     raw_flags := None;
     raw_decrypted_int := Some raw;
     raw_decrypted_hex := Some ("0x" ++ hex);
     notes := if negb (impedance_clamped raw =? raw)
              then Some "clamped_to_[430,630]" else None |}.

Definition impedance_outcome (tb hex : string) (raw : Z)
    : option LaicaParsedPacket * dict :=
  if impedance_plausible raw
  then (Some (impedance_packet hex raw),
        impedance_attempt tb hex raw "accepted" VNone)
  else (None,
        impedance_attempt tb hex raw "rejected"
          (VStr "impedance_out_of_range")).

Definition report_of (payload : bytes) (o : option LaicaParsedPacket * dict)
    : LaicaParseReport :=
  {| payload_hex := bytes_hex payload;
     payload_len := len payload;
     candidate_type_offsets := candidate_offsets payload;
     attempts := [snd o];
     parsed := fst o |}.

Definition too_short_attempt (payload : bytes) : dict :=
  [ ("scheme", VStr "known_layout");
    ("status", VStr "rejected");
    ("reason", VStr "payload_too_short");
    ("payload_len", VInt (len payload)) ].

Definition unknown_type_attempt (tb : string) : dict :=
  [ ("scheme", VStr "known_layout");
    ("type_offset", VInt 10);
    ("type_byte", VStr ("0x" ++ tb));
    ("status", VStr "rejected");
    ("reason", VStr "unknown_type_byte_at_known_offset") ].

Ltac dict_ops :=
  cbv [dict_update dict_set fold_left fst snd String.eqb Ascii.eqb Bool.eqb].

(** The four ways a report comes about; [parse_cases] shows that every
    payload takes one of them. *)
Inductive parse_case (payload : bytes) : LaicaParseReport -> Prop :=
| CaseTooShort :
    len payload <= 10 ->
    parse_case payload (report_of payload (None, too_short_attempt payload))
| CaseWeight b tb hex raw :
    py_getitem payload KNOWN_TYPE_OFFSET = Ok b ->
    byte_val b = PACKET_TYPE_WEIGHT ->
    format_0wx 2 (byte_val b) = Ok tb ->
    format_0wx 8 raw = Ok hex ->
    _decrypt_to_int (py_slice payload 6 10) = Ok raw ->
    0 <= raw < 2 ^ 32 ->
    parse_case payload (report_of payload (weight_outcome tb hex raw))
| CaseImpedance b tb hex raw :
    py_getitem payload KNOWN_TYPE_OFFSET = Ok b ->
    byte_val b = PACKET_TYPE_IMPEDANCE ->
    format_0wx 2 (byte_val b) = Ok tb ->
    format_0wx 4 raw = Ok hex ->
    _decrypt_to_int (py_slice payload 6 8) = Ok raw ->
    0 <= raw < 2 ^ 16 ->
    parse_case payload (report_of payload (impedance_outcome tb hex raw))
| CaseUnknownType b tb :
    py_getitem payload KNOWN_TYPE_OFFSET = Ok b ->
    byte_val b <> PACKET_TYPE_WEIGHT ->
    byte_val b <> PACKET_TYPE_IMPEDANCE ->
    format_0wx 2 (byte_val b) = Ok tb ->
    parse_case payload (report_of payload (None, unknown_type_attempt tb)).

(** ** Facts about the runtime fragment *)

Section Runtime.

Context {A : Type}.
Implicit Types (s : list A) (i : Z).

Lemma len_nonneg s : 0 <= len s.
Proof. unfold len. lia. Qed.

Lemma len_cons (x : A) s : len (x :: s) = 1 + len s.
Proof. unfold len. cbn [List.length]. lia. Qed.

Lemma len_nil : len (@nil A) = 0.
Proof. reflexivity. Qed.

Lemma py_getitem_Ok s i x :
  0 <= i ->
  py_getitem s i = Ok x <-> nth_error s (Z.to_nat i) = Some x.
Proof.
  intros Hi. unfold py_getitem.
  destruct (Z.ltb_spec i 0) as [|_]; [lia|].
  destruct (Z.ltb_spec i 0) as [|_]; [lia|].
  destruct (nth_error s (Z.to_nat i)) as [y|]; split; congruence.
Qed.

Lemma py_getitem_in_range s i x :
  0 <= i -> py_getitem s i = Ok x -> i < len s.
Proof.
  intros Hi H. apply py_getitem_Ok in H; [|exact Hi].
  assert (nth_error s (Z.to_nat i) <> None) as Hn by congruence.
  apply nth_error_Some in Hn. unfold len. lia.
Qed.

Lemma py_getitem_total s i :
  0 <= i < len s -> exists x, py_getitem s i = Ok x.
Proof.
  intros [Hi Hlt].
  destruct (nth_error s (Z.to_nat i)) as [x|] eqn:E.
  - exists x. apply py_getitem_Ok; assumption.
  - apply nth_error_None in E. unfold len in Hlt. lia.
Qed.

Lemma py_slice_in_range s lo hi :
  0 <= lo <= hi -> hi <= len s ->
  py_slice s lo hi = firstn (Z.to_nat (hi - lo)) (skipn (Z.to_nat lo) s).
Proof.
  intros [Hlo Hle] Hhi. unfold py_slice, slice_bound.
  destruct (Z.ltb_spec lo 0); [lia|].
  destruct (Z.ltb_spec hi 0); [lia|].
  rewrite !Z.min_l by lia. reflexivity.
Qed.

Lemma py_slice_len s lo hi :
  0 <= lo <= hi -> hi <= len s -> len (py_slice s lo hi) = hi - lo.
Proof.
  intros H1 H2. rewrite py_slice_in_range by assumption.
  unfold len in *. rewrite length_firstn, length_skipn. lia.
Qed.

End Runtime.

Lemma byte_val_range (b : byte) : 0 <= byte_val b < 256.
Proof.
  unfold byte_val. pose proof (Byte.to_N_bounded b). lia.
Qed.

Lemma byte_val_inj (b c : byte) : byte_val b = byte_val c -> b = c.
Proof.
  unfold byte_val. intros H. apply N2Z.inj in H.
  assert (Byte.of_N (Byte.to_N b) = Byte.of_N (Byte.to_N c)) as E by congruence.
  rewrite !Byte.of_to_N in E. congruence.
Qed.

Lemma byte_of_int_xor (b : byte) :
  byte_of_int (Z.lxor (byte_val b) 0xA0) = Ok (xor_a0 b).
Proof. destruct b; reflexivity. Qed.

Lemma xor_a0_involutive (b : byte) : xor_a0 (xor_a0 b) = b.
Proof. destruct b; reflexivity. Qed.

Lemma decrypted_map (data : bytes) : decrypted data = Ok (map xor_a0 data).
Proof.
  unfold decrypted.
  induction data as [|b data IH]; cbn [map py_bytes]; [reflexivity|].
  rewrite byte_of_int_xor. cbn [bind]. rewrite IH. reflexivity.
Qed.

Lemma int_from_bytes_big_range (b : bytes) :
  0 <= int_from_bytes_big b < 256 ^ len b.
Proof.
  unfold int_from_bytes_big.
  enough (forall acc k, 0 <= k -> 0 <= acc < 256 ^ k ->
            0 <= fold_left (fun a x => a * 256 + byte_val x) b acc
              < 256 ^ (k + len b)) as H.
  { apply (H 0 0); cbn; lia. }
  induction b as [|x b IH]; intros acc k Hk Hacc; cbn [fold_left].
  - change (len (@nil byte)) with 0. rewrite Z.add_0_r. exact Hacc.
  - rewrite len_cons.
    replace (k + (1 + len b)) with ((k + 1) + len b) by lia.
    apply IH; [lia|].
    pose proof (byte_val_range x).
    rewrite Z.pow_add_r by lia. change (256 ^ 1) with 256. nia.
Qed.

Lemma decrypt_to_int_total (data : bytes) :
  exists raw, _decrypt_to_int data = Ok raw /\ 0 <= raw < 256 ^ len data.
Proof.
  unfold _decrypt_to_int. rewrite decrypted_map. cbn [bind].
  eexists; split; [reflexivity|].
  pose proof (int_from_bytes_big_range (map xor_a0 data)) as H.
  unfold len in *. rewrite length_map in H. exact H.
Qed.

Lemma format_0wx_total (w z : Z) :
  0 <= w -> exists s, format_0wx w z = Ok s.
Proof.
  intros Hw. unfold format_0wx.
  destruct (Z.ltb_spec w 0); [lia|]. eexists; reflexivity.
Qed.

(** ** [round] is round-half-to-even *)

Section Rounding.

Local Open Scope Q_scope.

Variable x : Q.

Lemma floor_bounds :
  inject_Z (Qfloor x) <= x /\ x < inject_Z (Qfloor x) + 1.
Proof.
  split; [apply Qfloor_le|].
  pose proof (Qlt_floor x) as H. rewrite inject_Z_plus in H. exact H.
Qed.

Lemma round_cases :
  (x - inject_Z (Qfloor x) < 1 # 2 /\ round x = Qfloor x)
  \/ (1 # 2 < x - inject_Z (Qfloor x) /\ round x = (Qfloor x + 1)%Z)
  \/ (x - inject_Z (Qfloor x) == 1 # 2
      /\ round x = if Z.even (Qfloor x) then Qfloor x else (Qfloor x + 1)%Z).
Proof.
  unfold round.
  destruct (Qcompare_spec (x - inject_Z (Qfloor x)) (1 # 2)) as [E|E|E]; auto.
Qed.

(** The result is a nearest integer. *)
Lemma round_nearest : Qabs (inject_Z (round x) - x) <= 1 # 2.
Proof.
  destruct floor_bounds as [Hlo Hhi].
  apply Qabs_Qle_condition.
  destruct round_cases as [[H ->]|[[H ->]|[H ->]]].
  - split; lra.
  - rewrite inject_Z_plus. change (inject_Z 1) with 1. split; lra.
  - destruct (Z.even (Qfloor x)).
    + split; lra.
    + rewrite inject_Z_plus. change (inject_Z 1) with 1. split; lra.
Qed.

(** A tie is resolved towards the even neighbour. *)
Lemma round_tie_even :
  Qabs (inject_Z (round x) - x) == 1 # 2 -> Z.even (round x) = true.
Proof.
  destruct floor_bounds as [Hlo Hhi].
  destruct round_cases as [[H ->]|[[H ->]|[H ->]]]; intros Habs.
  - rewrite Qabs_neg in Habs by lra. lra.
  - rewrite inject_Z_plus in Habs. change (inject_Z 1) with 1 in Habs.
    rewrite Qabs_pos in Habs by lra. lra.
  - destruct (Z.even (Qfloor x)) eqn:Ev; [exact Ev|].
    rewrite Z.even_add, Ev. reflexivity.
Qed.

End Rounding.

(** Ties at a boundary of a tenth: 50.5 and 51.5 round to 50 and 52. *)
Example round_ties :
  round (truediv 5050 100) = 50 /\ round (truediv 5150 100) = 52.
Proof. split; reflexivity. Qed.

(** ** The parser on the known layout *)

Lemma value_guard_passes (payload : bytes) (n : Z) :
  10 < len payload -> 0 <= n <= 4 ->
  (KNOWN_VALUE_OFFSET <? 0) || (KNOWN_VALUE_OFFSET + n >? len payload) = false.
Proof.
  intros Hlen Hn. unfold KNOWN_VALUE_OFFSET.
  apply orb_false_iff. split; [reflexivity|].
  destruct (Z.gtb_spec (6 + n) (len payload)); [lia|reflexivity].
Qed.

Lemma attempt_parse_weight_eq (payload : bytes) (b : byte) :
  py_getitem payload KNOWN_TYPE_OFFSET = Ok b ->
  exists tb hex raw,
    format_0wx 2 (byte_val b) = Ok tb
    /\ format_0wx 8 raw = Ok hex
    /\ _decrypt_to_int (py_slice payload 6 10) = Ok raw
    /\ 0 <= raw < 2 ^ 32
    /\ _attempt_parse payload "weight" KNOWN_TYPE_OFFSET KNOWN_VALUE_OFFSET 4
         "known_layout" = Ok (weight_outcome tb hex raw).
Proof.
  intros Hget.
  assert (10 < len payload) as Hlen
    by (apply (py_getitem_in_range _ _ b); [lia|exact Hget]).
  destruct (format_0wx_total 2 (byte_val b)) as [tb Htb]; [lia|].
  destruct (decrypt_to_int_total (py_slice payload 6 10)) as [raw [Hraw Hr]].
  rewrite py_slice_len in Hr by lia.
  destruct (format_0wx_total 8 raw) as [hex Hhex]; [lia|].
  exists tb, hex, raw. repeat split; try assumption; try lia.
  unfold _attempt_parse. rewrite Hget. cbn [bind]. rewrite Htb. cbn [bind].
  rewrite value_guard_passes by lia.
  change (KNOWN_VALUE_OFFSET + 4) with 10.
  change KNOWN_VALUE_OFFSET with 6. change KNOWN_TYPE_OFFSET with 10.
  rewrite Hraw. cbn [bind].
  change ("weight" =? "weight")%string with true. cbv iota.
  change (4 * 2) with 8. rewrite Hhex. cbn [bind].
  dict_ops. unfold weight_outcome, weight_plausible, weight_kg_of.
  destruct (Qle_bool _ _ && Qle_bool _ _); reflexivity.
Qed.

Lemma attempt_parse_impedance_eq (payload : bytes) (b : byte) :
  py_getitem payload KNOWN_TYPE_OFFSET = Ok b ->
  exists tb hex raw,
    format_0wx 2 (byte_val b) = Ok tb
    /\ format_0wx 4 raw = Ok hex
    /\ _decrypt_to_int (py_slice payload 6 8) = Ok raw
    /\ 0 <= raw < 2 ^ 16
    /\ _attempt_parse payload "impedance" KNOWN_TYPE_OFFSET KNOWN_VALUE_OFFSET
         2 "known_layout" = Ok (impedance_outcome tb hex raw).
Proof.
  intros Hget.
  assert (10 < len payload) as Hlen
    by (apply (py_getitem_in_range _ _ b); [lia|exact Hget]).
  destruct (format_0wx_total 2 (byte_val b)) as [tb Htb]; [lia|].
  destruct (decrypt_to_int_total (py_slice payload 6 8)) as [raw [Hraw Hr]].
  rewrite py_slice_len in Hr by lia.
  destruct (format_0wx_total 4 raw) as [hex Hhex]; [lia|].
  exists tb, hex, raw. repeat split; try assumption; try lia.
  unfold _attempt_parse. rewrite Hget. cbn [bind]. rewrite Htb. cbn [bind].
  rewrite value_guard_passes by lia.
  change (KNOWN_VALUE_OFFSET + 2) with 8.
  change KNOWN_VALUE_OFFSET with 6. change KNOWN_TYPE_OFFSET with 10.
  rewrite Hraw. cbn [bind].
  change ("impedance" =? "weight")%string with false.
  change ("impedance" =? "impedance")%string with true. cbv iota.
  change (2 * 2) with 4. rewrite Hhex. cbn [bind].
  dict_ops. unfold impedance_outcome, impedance_plausible.
  fold (impedance_clamped raw).
  destruct ((200 <=? raw) && (raw <=? 1200)); reflexivity.
Qed.

(** The four ways through [parse_laica_manufacturer_data]. *)

Lemma parse_too_short (payload : bytes) :
  len payload <= 10 ->
  parse_laica_manufacturer_data payload
  = Ok (report_of payload (None, too_short_attempt payload)).
Proof.
  intros Hlen. unfold parse_laica_manufacturer_data.
  change KNOWN_TYPE_OFFSET with 10.
  destruct (Z.leb_spec (len payload) 10); [reflexivity|lia].
Qed.

Lemma parse_weight (payload : bytes) (b : byte) :
  py_getitem payload KNOWN_TYPE_OFFSET = Ok b ->
  byte_val b = PACKET_TYPE_WEIGHT ->
  exists tb hex raw,
    format_0wx 2 (byte_val b) = Ok tb
    /\ format_0wx 8 raw = Ok hex
    /\ _decrypt_to_int (py_slice payload 6 10) = Ok raw
    /\ 0 <= raw < 2 ^ 32
    /\ parse_laica_manufacturer_data payload
       = Ok (report_of payload (weight_outcome tb hex raw)).
Proof.
  intros Hget Hb.
  assert (10 < len payload) as Hlen
    by (apply (py_getitem_in_range _ _ b); [lia|exact Hget]).
  destruct (attempt_parse_weight_eq payload b Hget)
    as (tb & hex & raw & Htb & Hhex & Hraw & Hr & Hat).
  exists tb, hex, raw. repeat split; try assumption; try lia.
  unfold parse_laica_manufacturer_data.
  destruct (Z.leb_spec (len payload) KNOWN_TYPE_OFFSET) as [Hs|_];
    [unfold KNOWN_TYPE_OFFSET in Hs; lia|].
  rewrite Hget. cbn [bind]. rewrite Htb. cbn [bind].
  rewrite Hb, Z.eqb_refl, Hat. cbn [bind].
  destruct (weight_outcome tb hex raw) as [p a]. reflexivity.
Qed.

Lemma parse_impedance (payload : bytes) (b : byte) :
  py_getitem payload KNOWN_TYPE_OFFSET = Ok b ->
  byte_val b = PACKET_TYPE_IMPEDANCE ->
  exists tb hex raw,
    format_0wx 2 (byte_val b) = Ok tb
    /\ format_0wx 4 raw = Ok hex
    /\ _decrypt_to_int (py_slice payload 6 8) = Ok raw
    /\ 0 <= raw < 2 ^ 16
    /\ parse_laica_manufacturer_data payload
       = Ok (report_of payload (impedance_outcome tb hex raw)).
Proof.
  intros Hget Hb.
  assert (10 < len payload) as Hlen
    by (apply (py_getitem_in_range _ _ b); [lia|exact Hget]).
  destruct (attempt_parse_impedance_eq payload b Hget)
    as (tb & hex & raw & Htb & Hhex & Hraw & Hr & Hat).
  exists tb, hex, raw. repeat split; try assumption; try lia.
  unfold parse_laica_manufacturer_data.
  destruct (Z.leb_spec (len payload) KNOWN_TYPE_OFFSET) as [Hs|_];
    [unfold KNOWN_TYPE_OFFSET in Hs; lia|].
  rewrite Hget. cbn [bind]. rewrite Htb. cbn [bind].
  rewrite Hb. change (PACKET_TYPE_IMPEDANCE =? PACKET_TYPE_WEIGHT) with false.
  cbv iota. rewrite Z.eqb_refl, Hat. cbn [bind].
  destruct (impedance_outcome tb hex raw) as [p a]. reflexivity.
Qed.

Lemma parse_unknown_type (payload : bytes) (b : byte) :
  py_getitem payload KNOWN_TYPE_OFFSET = Ok b ->
  byte_val b <> PACKET_TYPE_WEIGHT ->
  byte_val b <> PACKET_TYPE_IMPEDANCE ->
  exists tb,
    format_0wx 2 (byte_val b) = Ok tb
    /\ parse_laica_manufacturer_data payload
       = Ok (report_of payload (None, unknown_type_attempt tb)).
Proof.
  intros Hget Hw Hi.
  assert (10 < len payload) as Hlen
    by (apply (py_getitem_in_range _ _ b); [lia|exact Hget]).
  destruct (format_0wx_total 2 (byte_val b)) as [tb Htb]; [lia|].
  exists tb. split; [exact Htb|].
  unfold parse_laica_manufacturer_data.
  destruct (Z.leb_spec (len payload) KNOWN_TYPE_OFFSET) as [Hs|_];
    [unfold KNOWN_TYPE_OFFSET in Hs; lia|].
  rewrite Hget. cbn [bind]. rewrite Htb. cbn [bind].
  destruct (Z.eqb_spec (byte_val b) PACKET_TYPE_WEIGHT); [contradiction|].
  destruct (Z.eqb_spec (byte_val b) PACKET_TYPE_IMPEDANCE); [contradiction|].
  reflexivity.
Qed.

Lemma parse_cases (payload : bytes) :
  exists r,
    parse_laica_manufacturer_data payload = Ok r /\ parse_case payload r.
Proof.
  destruct (Z.le_gt_cases (len payload) 10) as [Hs|Hl].
  - eexists. split; [apply parse_too_short; exact Hs|].
    constructor. exact Hs.
  - destruct (py_getitem_total payload KNOWN_TYPE_OFFSET) as [b Hget];
      [pose proof (len_nonneg payload); unfold KNOWN_TYPE_OFFSET; lia|].
    destruct (Z.eq_dec (byte_val b) PACKET_TYPE_WEIGHT) as [Hw|Hw].
    + destruct (parse_weight payload b Hget Hw)
        as (tb & hex & raw & Htb & Hhex & Hraw & Hr & Hp).
      eexists. split; [exact Hp|]. econstructor; eassumption.
    + destruct (Z.eq_dec (byte_val b) PACKET_TYPE_IMPEDANCE) as [Hi|Hi].
      * destruct (parse_impedance payload b Hget Hi)
          as (tb & hex & raw & Htb & Hhex & Hraw & Hr & Hp).
        eexists. split; [exact Hp|]. econstructor; eassumption.
      * destruct (parse_unknown_type payload b Hget Hw Hi) as (tb & Htb & Hp).
        eexists. split; [exact Hp|]. econstructor; eassumption.
Qed.

(** ** What [raw] is: the bytes of the value field, each XORed with [0xA0],
    read big-endian *)

Lemma byte_val_xor_a0 (b : byte) :
  byte_val (xor_a0 b) = Z.lxor (byte_val b) 0xA0.
Proof. destruct b; reflexivity. Qed.

Lemma decrypt_to_int_big_endian (data : bytes) :
  _decrypt_to_int data
  = Ok (fold_left (fun acc b => acc * 256 + Z.lxor (byte_val b) 0xA0) data 0).
Proof.
  unfold _decrypt_to_int. rewrite decrypted_map. cbn [bind]. f_equal.
  unfold int_from_bytes_big. generalize 0.
  induction data as [|b data IH]; intros acc; cbn [map fold_left];
    [reflexivity|].
  rewrite IH, byte_val_xor_a0. reflexivity.
Qed.

Lemma py_slice_nth {A : Type} (s : list A) (lo hi : Z) (k : nat) :
  0 <= lo <= hi -> hi <= len s -> Z.of_nat k < hi - lo ->
  nth_error (py_slice s lo hi) k = nth_error s (Z.to_nat lo + k).
Proof.
  intros H1 H2 Hk. rewrite py_slice_in_range by assumption.
  rewrite nth_error_firstn.
  destruct (Nat.ltb_spec k (Z.to_nat (hi - lo))) as [_|Hge]; [|lia].
  apply nth_error_skipn.
Qed.

(** ** The candidate scan *)

Lemma is_type_marker_iff (b : byte) :
  is_type_marker b = true
  <-> byte_val b = PACKET_TYPE_WEIGHT \/ byte_val b = PACKET_TYPE_IMPEDANCE.
Proof.
  unfold is_type_marker. rewrite orb_true_iff, !Z.eqb_eq. tauto.
Qed.

Lemma candidates_from_spec (k : Z) (s : bytes) :
  let l := map fst (filter (fun ib => is_type_marker (snd ib))
                      (enumerate_from k s)) in
  StronglySorted Z.lt l
  /\ forall i, In i l <->
       k <= i /\ exists b, nth_error s (Z.to_nat (i - k)) = Some b
                           /\ is_type_marker b = true.
Proof.
  revert k. induction s as [|x s IH]; intros k; cbn zeta.
  - split; [constructor|]. intros i. cbn. split; [tauto|].
    intros [_ [b [H _]]]. destruct (Z.to_nat (i - k)); discriminate.
  - destruct (IH (k + 1)) as [Hsorted Hin]. cbn zeta in Hsorted, Hin.
    assert (forall i,
      (k <= i /\ exists b, nth_error (x :: s) (Z.to_nat (i - k)) = Some b
                           /\ is_type_marker b = true)
      <-> (i = k /\ is_type_marker x = true)
          \/ (k + 1 <= i
              /\ exists b, nth_error s (Z.to_nat (i - (k + 1))) = Some b
                           /\ is_type_marker b = true)) as Hsplit.
    { intros i. split.
      - intros [Hk [b [Hn Hm]]].
        destruct (Z.eq_dec i k) as [->|Hne].
        + left. rewrite Z.sub_diag in Hn. cbn in Hn. split; congruence.
        + right. split; [lia|]. exists b. split; [|exact Hm].
          replace (Z.to_nat (i - k)) with (S (Z.to_nat (i - (k + 1))))
            in Hn by lia.
          exact Hn.
      - intros [[-> Hm]|[Hk [b [Hn Hm]]]].
        + split; [lia|]. exists x. rewrite Z.sub_diag. split; [reflexivity|].
          exact Hm.
        + split; [lia|]. exists b. split; [|exact Hm].
          replace (Z.to_nat (i - k)) with (S (Z.to_nat (i - (k + 1)))) by lia.
          exact Hn. }
    cbn [enumerate_from filter snd].
    destruct (is_type_marker x) eqn:Hx; cbn [map fst].
    + split.
      * constructor; [exact Hsorted|].
        apply Forall_forall. intros j Hj. apply Hin in Hj. lia.
      * intros i. rewrite Hsplit. cbn [In]. rewrite Hin. split.
        -- intros [H|H]; [left; split; [symmetry; exact H|reflexivity]|].
           right. exact H.
        -- intros [[H _]|H]; [left; symmetry; exact H|right; exact H].
    + split; [exact Hsorted|].
      intros i. rewrite Hsplit, Hin.
      split; [auto|]. intros [[_ H]|H]; [discriminate|exact H].
Qed.

Lemma candidate_offsets_spec (payload : bytes) :
  StronglySorted Z.lt (candidate_offsets payload)
  /\ forall i, In i (candidate_offsets payload) <->
       0 <= i /\ exists b, py_getitem payload i = Ok b
                           /\ (byte_val b = PACKET_TYPE_WEIGHT
                               \/ byte_val b = PACKET_TYPE_IMPEDANCE).
Proof.
  destruct (candidates_from_spec 0 payload) as [Hs Hin]. cbn zeta in Hs, Hin.
  split; [exact Hs|].
  intros i. unfold candidate_offsets, enumerate. rewrite Hin.
  split; intros [Hi [b [Hn Hm]]]; (split; [exact Hi|]); exists b.
  - rewrite Z.sub_0_r in Hn. split; [apply py_getitem_Ok; assumption|].
    apply is_type_marker_iff. exact Hm.
  - rewrite Z.sub_0_r. split; [apply py_getitem_Ok; assumption|].
    apply is_type_marker_iff. exact Hm.
Qed.

Lemma report_of_candidates (payload : bytes) (r : LaicaParseReport) :
  parse_case payload r -> candidate_type_offsets r = candidate_offsets payload.
Proof. intros H. destruct H; reflexivity. Qed.

(** * The properties *)

(** C1.  The reference vector: the 12 bytes that follow the marker
    [0f ff ac a0] in the reference advertisement are
    [a0 2b be 5e 91 a0 a0 2c 92 14 0d bf], and on them the parser returns a
    report whose parsed packet is present, of kind weight, with a weight of
    13.0 kg. *)
Theorem reference_vector_weight_13 :
  _extract_laica_payload_from_hci_event hci_event = Ok reference_payload
  /\ exists r p w,
       parse_laica_manufacturer_data reference_payload = Ok r
       /\ parsed r = Some p
       /\ kind p = "weight"
       /\ weight_kg p = Some w
       /\ (w == 13)%Q.
Proof.
  split; [reflexivity|].
  eexists. eexists. eexists.
  split; [vm_compute; reflexivity|].
  cbn [parsed kind weight_kg]. repeat split; reflexivity.
Qed.

(** C5.  A payload of at most 10 bytes, the empty one included, gives a
    report with no parsed packet and exactly one attempt: rejected, with
    reason [payload_too_short].  That attempt has the four keys below and no
    other, so nothing was extracted. *)
Theorem short_payload_rejected (payload : bytes) :
  len payload <= KNOWN_TYPE_OFFSET ->
  exists r,
    parse_laica_manufacturer_data payload = Ok r
    /\ parsed r = None
    /\ attempts r =
         [ [ ("scheme", VStr "known_layout");
             ("status", VStr "rejected");
             ("reason", VStr "payload_too_short");
             ("payload_len", VInt (len payload)) ] ].
Proof.
  intros Hlen. eexists. split; [apply parse_too_short; exact Hlen|].
  split; reflexivity.
Qed.

Lemma short_payload_rejected_witness :
  len (@nil byte) <= KNOWN_TYPE_OFFSET
  /\ exists r,
       parse_laica_manufacturer_data [] = Ok r
       /\ parsed r = None
       /\ attempts r =
            [ [ ("scheme", VStr "known_layout");
                ("status", VStr "rejected");
                ("reason", VStr "payload_too_short");
                ("payload_len", VInt (len (@nil byte))) ] ].
Proof.
  split; [vm_compute; discriminate|].
  apply (short_payload_rejected []). vm_compute; discriminate.
Defined.

Lemma type_byte_decodes (b : byte) (tb : string) :
  format_0wx 2 (byte_val b) = Ok tb ->
  String.length tb = 2%nat
  /\ option_map N.of_hex_uint (NilEmpty.uint_of_string tb)
     = Some (Byte.to_N b).
Proof.
  intros H. destruct b; vm_compute in H; injection H as <-;
    split; reflexivity.
Qed.

(** C6.  A payload of at least 11 bytes whose byte [b] at offset 10 is
    neither [0x0D] nor [0x06] gives a report with no parsed packet and a
    single attempt: rejected, with reason
    [unknown_type_byte_at_known_offset], whose [type_byte] is ["0x"] followed
    by the two hexadecimal digits of [b]. *)
Theorem unknown_type_rejected (payload : bytes) (b : byte) :
  py_getitem payload KNOWN_TYPE_OFFSET = Ok b ->
  byte_val b <> PACKET_TYPE_WEIGHT ->
  byte_val b <> PACKET_TYPE_IMPEDANCE ->
  exists r tb,
    parse_laica_manufacturer_data payload = Ok r
    /\ parsed r = None
    /\ attempts r =
         [ [ ("scheme", VStr "known_layout");
             ("type_offset", VInt KNOWN_TYPE_OFFSET);
             ("type_byte", VStr ("0x" ++ tb));
             ("status", VStr "rejected");
             ("reason", VStr "unknown_type_byte_at_known_offset") ] ]
    /\ String.length tb = 2%nat
    /\ option_map N.of_hex_uint (NilEmpty.uint_of_string tb)
       = Some (Byte.to_N b).
Proof.
  intros Hget Hw Hi.
  destruct (parse_unknown_type payload b Hget Hw Hi) as (tb & Htb & Hp).
  exists (report_of payload (None, unknown_type_attempt tb)), tb.
  split; [exact Hp|]. split; [reflexivity|]. split; [reflexivity|].
  apply type_byte_decodes. exact Htb.
Qed.

Lemma unknown_type_rejected_witness :
  exists r tb,
    parse_laica_manufacturer_data
      [ xa0; x2b; xbe; x5e; x91; xa0; xa1; x8c; x92; x14; x07 ] = Ok r
    /\ parsed r = None
    /\ attempts r =
         [ [ ("scheme", VStr "known_layout");
             ("type_offset", VInt KNOWN_TYPE_OFFSET);
             ("type_byte", VStr ("0x" ++ tb));
             ("status", VStr "rejected");
             ("reason", VStr "unknown_type_byte_at_known_offset") ] ]
    /\ String.length tb = 2%nat
    /\ option_map N.of_hex_uint (NilEmpty.uint_of_string tb)
       = Some (Byte.to_N x07).
Proof.
  apply (unknown_type_rejected
           [ xa0; x2b; xbe; x5e; x91; xa0; xa1; x8c; x92; x14; x07 ] x07).
  - reflexivity.
  - vm_compute; discriminate.
  - vm_compute; discriminate.
Defined.

(** C7.  The byte-wise XOR with [0xA0] that [_decrypt_to_int] applies is an
    involution: it never fails, and applying it to its own result gives the
    original bytes back. *)
Theorem decrypted_involution (b : bytes) :
  exists c, decrypted b = Ok c /\ decrypted c = Ok b.
Proof.
  exists (map xor_a0 b). split; [apply decrypted_map|].
  rewrite decrypted_map, map_map. apply f_equal.
  transitivity (map (fun x => x) b); [|apply map_id].
  apply map_ext. exact xor_a0_involutive.
Qed.

(** C2.  On the weight path (the byte at offset 10 is [0x0D]), with [raw]
    the de-obfuscated integer of bytes 6..9, the attempt records
    [raw_masked = raw & 0x3FFFF], [raw_flags = raw & ~0x3FFFF],
    [is_stable = ((raw & 0x80000000) != 0)] and
    [weight_kg = round(raw_masked / 100) / 10], and a parsed packet, when
    there is one, carries the same flags, stability and weight.  [round] is
    one fixed round-half rule, applied once before the division by 10: its
    result is a nearest integer, and a tie goes to the even neighbour. *)
Theorem weight_path_fields (payload : bytes) :
  py_getitem payload KNOWN_TYPE_OFFSET = Ok x0d ->
  exists raw r a,
    _decrypt_to_int
      (py_slice payload KNOWN_VALUE_OFFSET (KNOWN_VALUE_OFFSET + 4)) = Ok raw
    /\ parse_laica_manufacturer_data payload = Ok r
    /\ attempts r = [a]
    /\ let raw_masked := Z.land raw 0x3FFFF in
       let n := round (truediv raw_masked 100) in
       dict_get a "raw_decrypted_int" = Some (VInt raw)
       /\ dict_get a "raw_masked" = Some (VInt raw_masked)
       /\ dict_get a "raw_flags" = Some (VInt (Z.land raw (Z.lnot 0x3FFFF)))
       /\ dict_get a "is_stable"
          = Some (VBool (negb (Z.land raw 0x80000000 =? 0)))
       /\ dict_get a "weight_kg" = Some (VFloat (truediv n 10))
       /\ (Qabs (inject_Z n - truediv raw_masked 100) <= 1 # 2)%Q
       /\ ((Qabs (inject_Z n - truediv raw_masked 100) == 1 # 2)%Q ->
           Z.even n = true)
       /\ forall p, parsed r = Some p ->
            kind p = "weight"
            /\ raw_decrypted_int p = Some raw
            /\ raw_flags p = Some (Z.land raw (Z.lnot 0x3FFFF))
            /\ is_stable p = Some (negb (Z.land raw 0x80000000 =? 0))
            /\ weight_kg p = Some (truediv n 10).
Proof.
  intros Hget.
  destruct (parse_weight payload x0d Hget eq_refl)
    as (tb & hex & raw & _ & _ & Hraw & _ & Hp).
  exists raw, (report_of payload (weight_outcome tb hex raw)),
         (snd (weight_outcome tb hex raw)).
  split; [exact Hraw|]. split; [exact Hp|]. split; [reflexivity|].
  cbn zeta. unfold weight_outcome.
  do 5 (split; [destruct (weight_plausible raw); reflexivity|]).
  split; [apply round_nearest|]. split; [apply round_tie_even|].
  intros p Hparsed.
  destruct (weight_plausible raw); cbn [report_of parsed fst] in Hparsed;
    [|discriminate].
  injection Hparsed as <-. repeat split; reflexivity.
Qed.

Lemma weight_path_fields_witness :
  py_getitem reference_payload KNOWN_TYPE_OFFSET = Ok x0d
  /\ exists r a,
       parse_laica_manufacturer_data reference_payload = Ok r
       /\ attempts r = [a]
       /\ dict_get a "raw_masked" = Some (VInt 12980)
       /\ dict_get a "weight_kg" = Some (VFloat (truediv 130 10)).
Proof.
  split; [reflexivity|].
  destruct (weight_path_fields reference_payload eq_refl)
    as (raw & r & a & Hraw & Hp & Ha & Hf).
  vm_compute in Hraw. injection Hraw as <-.
  destruct Hf as (_ & Hmasked & _ & _ & Hw & _).
  exists r, a. repeat split; assumption.
Defined.

Lemma impedance_reading_cases (raw : Z) :
  (impedance_plausible raw = true <-> 200 <= raw <= 1200)
  /\ 430 <= impedance_clamped raw <= 630
  /\ (raw < 430 -> impedance_clamped raw = 430)
  /\ (630 < raw -> impedance_clamped raw = 630)
  /\ (430 <= raw <= 630 -> impedance_clamped raw = raw)
  /\ (negb (impedance_clamped raw =? raw) = true <-> ~ 430 <= raw <= 630).
Proof.
  unfold impedance_plausible, impedance_clamped.
  rewrite andb_true_iff, !Z.leb_le, negb_true_iff, Z.eqb_neq.
  repeat split; lia.
Qed.

(** C3, as amended.  On the impedance path (the byte at offset 10 is
    [0x06]), with [raw] the de-obfuscated integer of bytes 6..7: the attempt
    is accepted iff [200 <= raw <= 1200], and otherwise it is rejected with
    reason [impedance_out_of_range] and no packet is parsed; a parsed packet
    has [430 <= impedance_ohm <= 630] (430 for a reading below 430, 630 for
    one above 630), and its notes are ["clamped_to_[430,630]"] iff the
    accepted reading was outside [430, 630], and absent iff it was inside. *)
Theorem impedance_path_gate_and_clamp (payload : bytes) :
  py_getitem payload KNOWN_TYPE_OFFSET = Ok x06 ->
  exists raw r a,
    _decrypt_to_int
      (py_slice payload KNOWN_VALUE_OFFSET (KNOWN_VALUE_OFFSET + 2)) = Ok raw
    /\ parse_laica_manufacturer_data payload = Ok r
    /\ attempts r = [a]
    /\ dict_get a "impedance_ohm_raw" = Some (VInt raw)
    /\ (dict_get a "status" = Some (VStr "accepted") <-> 200 <= raw <= 1200)
    /\ (~ 200 <= raw <= 1200 ->
        dict_get a "status" = Some (VStr "rejected")
        /\ dict_get a "reason" = Some (VStr "impedance_out_of_range")
        /\ parsed r = None)
    /\ (200 <= raw <= 1200 -> exists p, parsed r = Some p)
    /\ forall p, parsed r = Some p ->
         kind p = "impedance"
         /\ (notes p = Some "clamped_to_[430,630]" <-> ~ 430 <= raw <= 630)
         /\ (notes p = None <-> 430 <= raw <= 630)
         /\ exists z,
              impedance_ohm p = Some z
              /\ 430 <= z <= 630
              /\ (raw < 430 -> z = 430)
              /\ (630 < raw -> z = 630)
              /\ (430 <= raw <= 630 -> z = raw).
Proof.
  intros Hget.
  destruct (parse_impedance payload x06 Hget eq_refl)
    as (tb & hex & raw & _ & _ & Hraw & _ & Hp).
  exists raw, (report_of payload (impedance_outcome tb hex raw)),
         (snd (impedance_outcome tb hex raw)).
  split; [exact Hraw|]. split; [exact Hp|]. split; [reflexivity|].
  destruct (impedance_reading_cases raw)
    as (Hgate & Hwin & Hlow & Hhigh & Hmid & Hnote).
  unfold impedance_outcome.
  destruct (impedance_plausible raw) eqn:Hplausible;
    cbn [report_of parsed attempts fst snd].
  - assert (200 <= raw <= 1200) as Hin by (apply Hgate; reflexivity).
    split; [reflexivity|]. split; [split; [intros _; exact Hin|reflexivity]|].
    split; [intros Hout; contradiction|].
    split; [intros _; eexists; reflexivity|].
    intros p Hparsed. injection Hparsed as <-.
    cbn [impedance_packet kind notes impedance_ohm].
    split; [reflexivity|].
    destruct (negb (impedance_clamped raw =? raw)) eqn:Hc.
    + assert (~ 430 <= raw <= 630) as Hout by (apply Hnote; reflexivity).
      split; [split; [intros _; exact Hout|reflexivity]|].
      split; [split; [discriminate|contradiction]|].
      exists (impedance_clamped raw). auto.
    + assert (430 <= raw <= 630) as Hmidr.
      { destruct (Z_le_dec 430 raw); [destruct (Z_le_dec raw 630)|];
          [lia| |]; (assert (false = true) by (apply Hnote; lia));
          discriminate. }
      split; [split; [discriminate|intros Hout; contradiction]|].
      split; [split; [intros _; exact Hmidr|reflexivity]|].
      exists (impedance_clamped raw). auto.
  - assert (~ 200 <= raw <= 1200) as Hout
      by (intros Hin; apply Hgate in Hin; discriminate).
    split; [reflexivity|].
    split; [split; [discriminate|intros Hin; contradiction]|].
    split; [intros _; repeat split; reflexivity|].
    split; [intros Hin; contradiction|].
    intros p Hparsed. discriminate.
Qed.

Lemma impedance_path_gate_and_clamp_witness :
  py_getitem impedance_300_payload KNOWN_TYPE_OFFSET = Ok x06
  /\ exists r p,
       parse_laica_manufacturer_data impedance_300_payload = Ok r
       /\ parsed r = Some p
       /\ impedance_ohm p = Some 430
       /\ notes p = Some "clamped_to_[430,630]".
Proof.
  split; [reflexivity|].
  destruct (impedance_path_gate_and_clamp impedance_300_payload eq_refl)
    as (raw & r & a & Hraw & Hp & _ & _ & _ & _ & Hsome & Hpacket).
  vm_compute in Hraw. injection Hraw as <-.
  destruct Hsome as [p Hparsed]; [lia|].
  destruct (Hpacket p Hparsed) as (_ & Hnotes & _ & z & Hz & _ & Hlow & _).
  exists r, p. repeat split; try assumption.
  - rewrite Hz, Hlow by lia. reflexivity.
  - apply Hnotes. lia.
Defined.

(** C3, as stated, fails: on [impedance_300_payload] the reading 300 is
    accepted and lies outside [430, 630], yet the notes are not the string
    ["clamped"]. *)
Lemma impedance_notes_clamped_literal_counterexample :
  ~ (forall r p raw,
       parse_laica_manufacturer_data impedance_300_payload = Ok r ->
       parsed r = Some p ->
       _decrypt_to_int
         (py_slice impedance_300_payload KNOWN_VALUE_OFFSET
            (KNOWN_VALUE_OFFSET + 2)) = Ok raw ->
       (notes p = Some "clamped" <-> ~ 430 <= raw <= 630)).
Proof.
  intros Hclaim.
  edestruct Hclaim as [_ Hnotes];
    [vm_compute; reflexivity|cbn [parsed]; reflexivity
    |vm_compute; reflexivity|].
  assert (~ 430 <= 300 <= 630) as Hout by lia.
  apply Hnotes in Hout. cbn in Hout. discriminate.
Qed.

Lemma weight_plausible_iff (raw : Z) :
  weight_plausible raw = true
  <-> (5 <= weight_kg_of raw <= 400)%Q.
Proof.
  unfold weight_plausible. rewrite andb_true_iff, !Qle_bool_iff. reflexivity.
Qed.

Lemma known_offset_in_range (payload : bytes) (b : byte) :
  py_getitem payload KNOWN_TYPE_OFFSET = Ok b -> 10 < len payload.
Proof.
  intros H. apply (py_getitem_in_range _ _ b); [|exact H].
  unfold KNOWN_TYPE_OFFSET. lia.
Qed.

(** C4.  Whatever the payload, a parsed packet of kind weight has
    [5 <= weight_kg <= 400]; and on the weight path, when the computed weight
    is outside [5, 400], the attempt is rejected with reason
    [weight_out_of_range] and the report has no parsed packet. *)
Theorem weight_range_gate (payload : bytes) :
  exists r,
    parse_laica_manufacturer_data payload = Ok r
    /\ (forall p, parsed r = Some p -> kind p = "weight" ->
          exists w, weight_kg p = Some w /\ (5 <= w <= 400)%Q)
    /\ (forall raw,
          py_getitem payload KNOWN_TYPE_OFFSET = Ok x0d ->
          _decrypt_to_int
            (py_slice payload KNOWN_VALUE_OFFSET (KNOWN_VALUE_OFFSET + 4))
            = Ok raw ->
          let w :=
            truediv (round (truediv (Z.land raw WEIGHT_VALUE_MASK) 100)) 10 in
          ~ (5 <= w <= 400)%Q ->
          parsed r = None
          /\ exists a,
               attempts r = [a]
               /\ dict_get a "status" = Some (VStr "rejected")
               /\ dict_get a "reason" = Some (VStr "weight_out_of_range")
               /\ dict_get a "weight_kg" = Some (VFloat w)).
Proof.
  destruct (parse_cases payload) as [r [Hp Hcase]].
  exists r. split; [exact Hp|]. split.
  - destruct Hcase as [Hs|b tb hex raw _ _ _ _ _ _|b tb hex raw _ _ _ _ _ _
                      |b tb _ _ _ _];
      intros p Hparsed Hkind; cbn [report_of parsed fst] in Hparsed;
      try discriminate.
    + unfold weight_outcome in Hparsed.
      destruct (weight_plausible raw) eqn:Hpl; cbn [fst] in Hparsed;
        [|discriminate].
      injection Hparsed as <-. exists (weight_kg_of raw).
      split; [reflexivity|]. apply weight_plausible_iff. exact Hpl.
    + unfold impedance_outcome in Hparsed.
      destruct (impedance_plausible raw); cbn [fst] in Hparsed;
        [|discriminate].
      injection Hparsed as <-. discriminate.
  - intros raw Hget Hraw w Hout.
    destruct (parse_weight payload x0d Hget eq_refl)
      as (tb & hex & raw' & _ & _ & Hraw' & _ & Hp').
    change (KNOWN_VALUE_OFFSET + 4) with 10 in Hraw.
    change KNOWN_VALUE_OFFSET with 6 in Hraw.
    rewrite Hraw in Hraw'. injection Hraw' as <-.
    rewrite Hp in Hp'. injection Hp' as ->.
    unfold weight_outcome.
    destruct (weight_plausible raw) eqn:Hpl.
    + apply weight_plausible_iff in Hpl. contradiction.
    + split; [reflexivity|]. eexists. repeat split; reflexivity.
Qed.

Lemma weight_range_gate_witness :
  exists r a,
    parse_laica_manufacturer_data weight_zero_payload = Ok r
    /\ parsed r = None
    /\ attempts r = [a]
    /\ dict_get a "reason" = Some (VStr "weight_out_of_range").
Proof.
  destruct (weight_range_gate weight_zero_payload) as (r & Hp & _ & Hout).
  destruct (Hout 0 eq_refl eq_refl) as (Hnone & a & Ha & _ & Hreason & _).
  - vm_compute. intros [H _]. apply H. reflexivity.
  - exists r, a. repeat split; assumption.
Defined.

(** C8.  The report's candidate offsets are strictly increasing and are
    exactly the offsets of the bytes equal to [0x0D] or [0x06]; the empty
    payload has none; and offset 10 is among them whenever the byte there is
    one of the two markers, whatever the known-layout attempt decides. *)
Theorem candidate_type_offsets_scan (payload : bytes) :
  exists r,
    parse_laica_manufacturer_data payload = Ok r
    /\ StronglySorted Z.lt (candidate_type_offsets r)
    /\ (forall i, In i (candidate_type_offsets r) <->
          0 <= i /\ exists b, py_getitem payload i = Ok b
                              /\ (byte_val b = PACKET_TYPE_WEIGHT
                                  \/ byte_val b = PACKET_TYPE_IMPEDANCE))
    /\ (payload = [] -> candidate_type_offsets r = [])
    /\ (forall b, py_getitem payload KNOWN_TYPE_OFFSET = Ok b ->
          byte_val b = PACKET_TYPE_WEIGHT
          \/ byte_val b = PACKET_TYPE_IMPEDANCE ->
          In KNOWN_TYPE_OFFSET (candidate_type_offsets r)).
Proof.
  destruct (parse_cases payload) as [r [Hp Hcase]].
  exists r. split; [exact Hp|].
  rewrite (report_of_candidates payload r Hcase).
  destruct (candidate_offsets_spec payload) as [Hsorted Hin].
  split; [exact Hsorted|]. split; [exact Hin|]. split.
  - intros ->. reflexivity.
  - intros b Hget Hb. apply Hin. split; [unfold KNOWN_TYPE_OFFSET; lia|].
    exists b. split; assumption.
Qed.

Lemma candidate_type_offsets_scan_witness :
  exists r,
    parse_laica_manufacturer_data [ x0d; x00; x06 ] = Ok r
    /\ In 2 (candidate_type_offsets r)
    /\ ~ In 1 (candidate_type_offsets r).
Proof.
  destruct (candidate_type_offsets_scan [ x0d; x00; x06 ])
    as (r & Hp & _ & Hin & _).
  exists r. split; [exact Hp|]. split.
  - apply Hin. split; [lia|]. exists x06. split; [reflexivity|].
    right. reflexivity.
  - intros H. apply Hin in H. destruct H as [_ [b [Hget Hb]]].
    vm_compute in Hget. injection Hget as <-.
    destruct Hb as [Hb|Hb]; vm_compute in Hb; discriminate.
Defined.

(** C9.  The parser is total: on every byte input, the empty one included,
    it returns a report and raises nothing (no [IndexError] from an index or
    a slice, no [ValueError]).  The report holds one attempt, and when no
    attempt is accepted it has no parsed packet and a rejected attempt with a
    non-empty reason. *)
Theorem parse_never_raises (payload : bytes) :
  exists r,
    parse_laica_manufacturer_data payload = Ok r
    /\ (exists a, attempts r = [a])
    /\ ((forall a, In a (attempts r) ->
           dict_get a "status" <> Some (VStr "accepted")) ->
        parsed r = None
        /\ exists a reason,
             In a (attempts r)
             /\ dict_get a "status" = Some (VStr "rejected")
             /\ dict_get a "reason" = Some (VStr reason)
             /\ reason <> "").
Proof.
  destruct (parse_cases payload) as [r [Hp Hcase]].
  exists r. split; [exact Hp|].
  destruct Hcase as [Hs|b tb hex raw _ _ _ _ _ _|b tb hex raw _ _ _ _ _ _
                    |b tb _ _ _ _];
    (split; [eexists; reflexivity|]); cbn [report_of attempts parsed fst snd];
    intros Hnone.
  - split; [reflexivity|]. eexists. eexists.
    split; [left; reflexivity|]. repeat split; [reflexivity..|discriminate].
  - unfold weight_outcome in *. destruct (weight_plausible raw).
    + exfalso. apply (Hnone _ (or_introl eq_refl)). reflexivity.
    + split; [reflexivity|]. eexists. eexists.
      split; [left; reflexivity|]. repeat split; [reflexivity..|discriminate].
  - unfold impedance_outcome in *. destruct (impedance_plausible raw).
    + exfalso. apply (Hnone _ (or_introl eq_refl)). reflexivity.
    + split; [reflexivity|]. eexists. eexists.
      split; [left; reflexivity|]. repeat split; [reflexivity..|discriminate].
  - split; [reflexivity|]. eexists. eexists.
    split; [left; reflexivity|]. repeat split; [reflexivity..|discriminate].
Qed.

Lemma parse_never_raises_witness :
  exists r a reason,
    parse_laica_manufacturer_data [] = Ok r
    /\ parsed r = None
    /\ In a (attempts r)
    /\ dict_get a "reason" = Some (VStr reason)
    /\ reason <> "".
Proof.
  destruct (parse_never_raises []) as (r & Hp & _ & Hrej).
  destruct Hrej as (Hnone & a & reason & Hin & _ & Hreason & Hne).
  - vm_compute in Hp. injection Hp as <-.
    intros a [<-|[]]. cbn. discriminate.
  - exists r, a, reason. repeat split; assumption.
Defined.

(** C10.  No attempt of a report has the reason [value_bytes_out_of_range]:
    [_attempt_parse] is only called on a payload of more than 10 bytes, with
    value offset 6 and a value length of at most 4, and there its bounds check
    passes.  So an attempt that records a value offset and length has
    [value_offset + value_length <= len(payload)], accepted or not. *)
Theorem value_bytes_never_out_of_range (payload : bytes) :
  exists r,
    parse_laica_manufacturer_data payload = Ok r
    /\ (forall n, 10 < len payload -> 0 <= n <= 4 ->
          (KNOWN_VALUE_OFFSET <? 0)
          || (KNOWN_VALUE_OFFSET + n >? len payload) = false)
    /\ forall a, In a (attempts r) ->
         dict_get a "reason" <> Some (VStr "value_bytes_out_of_range")
         /\ forall o l,
              dict_get a "value_offset" = Some (VInt o) ->
              dict_get a "value_length" = Some (VInt l) ->
              10 < len payload
              /\ o = KNOWN_VALUE_OFFSET
              /\ 0 <= l <= 4
              /\ o + l <= len payload.
Proof.
  destruct (parse_cases payload) as [r [Hp Hcase]].
  exists r. split; [exact Hp|].
  split; [intros n Hlen Hn; apply value_guard_passes; assumption|].
  destruct Hcase as [Hs|b tb hex raw Hget _ _ _ _ _
                    |b tb hex raw Hget _ _ _ _ _|b tb _ _ _ _];
    cbn [report_of attempts snd]; intros a [<-|[]].
  - split; [discriminate|]. intros o l Ho. discriminate.
  - apply known_offset_in_range in Hget.
    unfold weight_outcome. destruct (weight_plausible raw); cbn [snd];
      (split; [discriminate|]); intros o l Ho Hl;
      injection Ho as <-; injection Hl as <-;
      unfold KNOWN_VALUE_OFFSET; lia.
  - apply known_offset_in_range in Hget.
    unfold impedance_outcome. destruct (impedance_plausible raw); cbn [snd];
      (split; [discriminate|]); intros o l Ho Hl;
      injection Ho as <-; injection Hl as <-;
      unfold KNOWN_VALUE_OFFSET; lia.
  - split; [discriminate|]. intros o l Ho. discriminate.
Qed.

Lemma value_bytes_never_out_of_range_witness :
  exists r a,
    parse_laica_manufacturer_data reference_payload = Ok r
    /\ attempts r = [a]
    /\ dict_get a "value_offset" = Some (VInt 6)
    /\ dict_get a "value_length" = Some (VInt 4)
    /\ 6 + 4 <= len reference_payload.
Proof.
  destruct (value_bytes_never_out_of_range reference_payload)
    as (r & Hp & _ & Hatt).
  vm_compute in Hp. injection Hp as <-.
  eexists. eexists. split; [vm_compute; reflexivity|].
  split; [reflexivity|]. split; [reflexivity|]. split; [reflexivity|].
  destruct (Hatt _ (or_introl eq_refl)) as [_ Hbound].
  destruct (Hbound 6 4 eq_refl eq_refl) as (_ & _ & _ & H). exact H.
Defined.

(** * Further properties of the code *)

(** ** [_decrypt_to_int] *)

Lemma xor_a0_injective (b c : byte) : xor_a0 b = xor_a0 c -> b = c.
Proof.
  intros H. rewrite <- (xor_a0_involutive b), <- (xor_a0_involutive c), H.
  reflexivity.
Qed.

Lemma big_endian_fold_injective (a b : bytes) (acc acc' : Z) :
  List.length a = List.length b ->
  fold_left (fun s x => s * 256 + byte_val x) a acc
  = fold_left (fun s x => s * 256 + byte_val x) b acc' ->
  acc = acc' /\ a = b.
Proof.
  revert b acc acc'.
  induction a as [|x a IH]; intros [|y b] acc acc' Hlen Heq;
    cbn [List.length] in Hlen; try discriminate.
  - split; [exact Heq|reflexivity].
  - cbn [fold_left] in Heq. apply IH in Heq; [|congruence].
    destruct Heq as [Hacc ->].
    pose proof (byte_val_range x). pose proof (byte_val_range y).
    assert (acc = acc') by lia. subst acc'.
    split; [reflexivity|]. f_equal. apply byte_val_inj. lia.
Qed.

(** X1.  [_decrypt_to_int] never fails, its result on [n] bytes lies in
    [0, 256^n), and it loses nothing: two byte strings of the same length
    with the same result are equal. *)
Theorem decrypt_to_int_faithful :
  (forall data, exists raw,
      _decrypt_to_int data = Ok raw /\ 0 <= raw < 256 ^ len data)
  /\ (forall a b raw,
        len a = len b ->
        _decrypt_to_int a = Ok raw -> _decrypt_to_int b = Ok raw -> a = b).
Proof.
  split; [exact decrypt_to_int_total|].
  intros a b raw Hlen Ha Hb.
  unfold _decrypt_to_int in Ha, Hb. rewrite decrypted_map in Ha, Hb.
  cbn [bind] in Ha, Hb. injection Ha as Ha. injection Hb as Hb.
  unfold int_from_bytes_big in Ha, Hb. rewrite <- Hb in Ha.
  apply big_endian_fold_injective in Ha.
  - destruct Ha as [_ Hmap].
    apply (f_equal (map xor_a0)) in Hmap. rewrite !map_map in Hmap.
    rewrite (map_ext _ (fun x => x) xor_a0_involutive a) in Hmap.
    rewrite (map_ext _ (fun x => x) xor_a0_involutive b) in Hmap.
    rewrite !map_id in Hmap. exact Hmap.
  - rewrite !length_map. unfold len in Hlen. lia.
Qed.

(** ** The weight value field *)

Lemma weight_mask_split (raw : Z) :
  0 <= Z.land raw WEIGHT_VALUE_MASK < 2 ^ 18
  /\ Z.land raw (Z.lnot WEIGHT_VALUE_MASK) = 2 ^ 18 * (raw / 2 ^ 18)
  /\ raw = Z.land raw (Z.lnot WEIGHT_VALUE_MASK) + Z.land raw WEIGHT_VALUE_MASK.
Proof.
  change WEIGHT_VALUE_MASK with (Z.ones 18).
  rewrite Z.land_ones by lia.
  assert (Z.land raw (Z.lnot (Z.ones 18)) = 2 ^ 18 * (raw / 2 ^ 18)) as Hf.
  { change (Z.land raw (Z.lnot (Z.ones 18))) with (Z.ldiff raw (Z.ones 18)).
    rewrite Z.ldiff_ones_r by lia.
    rewrite Z.shiftl_mul_pow2, Z.shiftr_div_pow2 by lia. lia. }
  rewrite Hf. split; [apply Z.mod_pos_bound; lia|]. split; [reflexivity|].
  pose proof (Z.div_mod raw (2 ^ 18)). lia.
Qed.

Lemma stable_bit_is_top_bit (raw : Z) :
  0 <= raw < 2 ^ 32 ->
  negb (Z.land raw WEIGHT_STABLE_BIT =? 0) = (2 ^ 31 <=? raw).
Proof.
  intros Hr. change WEIGHT_STABLE_BIT with (2 ^ 31).
  assert (Z.land raw (2 ^ 31) = if Z.testbit raw 31 then 2 ^ 31 else 0) as Hl.
  { apply Z.bits_inj'. intros i Hi. rewrite Z.land_spec.
    rewrite Z.pow2_bits_eqb by lia.
    destruct (Z.eqb_spec 31 i) as [<-|Hne].
    - destruct (Z.testbit raw 31) eqn:E; cbn [andb].
      + symmetry. apply Z.pow2_bits_true. lia.
      + symmetry. apply Z.bits_0.
    - rewrite andb_false_r. symmetry.
      destruct (Z.testbit raw 31).
      + apply Z.pow2_bits_false. exact Hne.
      + apply Z.bits_0. }
  rewrite Hl, (Z.testbit_eqb raw 31) by lia.
  destruct (Z.leb_spec (2 ^ 31) raw) as [Hle|Hlt].
  - assert (raw / 2 ^ 31 = 1) as ->; [|reflexivity].
    assert (1 <= raw / 2 ^ 31 < 2); [|lia].
    split; [apply Z.div_le_lower_bound; lia|].
    apply Z.div_lt_upper_bound; lia.
  - rewrite Z.div_small by lia. reflexivity.
Qed.

(** X2.  On the weight path the attempt splits the raw integer without loss:
    [raw = raw_flags + raw_masked] with [0 <= raw_masked < 2^18] and
    [raw_flags] a multiple of [2^18]; [raw] fits in 32 bits and [is_stable]
    tells exactly whether [raw >= 0x80000000]. *)
Theorem weight_raw_split (payload : bytes) :
  py_getitem payload KNOWN_TYPE_OFFSET = Ok x0d ->
  exists r a raw masked flags stable,
    parse_laica_manufacturer_data payload = Ok r
    /\ attempts r = [a]
    /\ dict_get a "raw_decrypted_int" = Some (VInt raw)
    /\ dict_get a "raw_masked" = Some (VInt masked)
    /\ dict_get a "raw_flags" = Some (VInt flags)
    /\ dict_get a "is_stable" = Some (VBool stable)
    /\ 0 <= raw < 2 ^ 32
    /\ raw = flags + masked
    /\ 0 <= masked < 2 ^ 18
    /\ flags = 2 ^ 18 * (raw / 2 ^ 18)
    /\ stable = (0x80000000 <=? raw).
Proof.
  intros Hget.
  destruct (parse_weight payload x0d Hget eq_refl)
    as (tb & hex & raw & _ & _ & _ & Hr & Hp).
  destruct (weight_mask_split raw) as (Hm & Hf & Hsplit).
  exists (report_of payload (weight_outcome tb hex raw)),
         (snd (weight_outcome tb hex raw)), raw,
         (Z.land raw WEIGHT_VALUE_MASK),
         (Z.land raw (Z.lnot WEIGHT_VALUE_MASK)),
         (negb (Z.land raw WEIGHT_STABLE_BIT =? 0)).
  split; [exact Hp|]. split; [reflexivity|]. unfold weight_outcome.
  do 4 (split; [destruct (weight_plausible raw); reflexivity|]).
  split; [exact Hr|]. split; [exact Hsplit|]. split; [exact Hm|].
  split; [exact Hf|]. apply stable_bit_is_top_bit. exact Hr.
Qed.

Lemma weight_raw_split_witness :
  exists r a,
    parse_laica_manufacturer_data reference_payload = Ok r
    /\ attempts r = [a]
    /\ dict_get a "raw_flags" = Some (VInt 0x8c0000)
    /\ dict_get a "is_stable" = Some (VBool false).
Proof.
  destruct (weight_raw_split reference_payload eq_refl)
    as (r & a & raw & masked & flags & stable & Hp & Ha & Hraw & _ & Hflags
        & Hstable & _ & _ & _ & Hf & Hs).
  exists r, a. split; [exact Hp|]. split; [exact Ha|].
  vm_compute in Hp. injection Hp as <-. injection Ha as <-.
  vm_compute in Hraw. injection Hraw as <-.
  rewrite Hflags, Hstable, Hf, Hs. split; reflexivity.
Defined.

Lemma round_hundredths_range (m : Z) :
  0 <= m < 2 ^ 18 -> 0 <= round (truediv m 100) <= 2621.
Proof.
  intros Hm.
  pose proof (round_nearest (truediv m 100)) as Hn.
  apply Qabs_Qle_condition in Hn. destruct Hn as [Hlo Hhi].
  assert (0 <= truediv m 100 <= 262143 # 100)%Q as [Hq0 Hq1].
  { unfold truediv, Qle, Qdiv, Qmult, Qinv, inject_Z. cbn. lia. }
  split.
  - assert (inject_Z (-1) < inject_Z (round (truediv m 100)))%Q as H
      by (change (inject_Z (-1)) with (-1 # 1)%Q; lra).
    rewrite <- Zlt_Qlt in H. lia.
  - assert (inject_Z (round (truediv m 100)) < inject_Z 2622)%Q as H
      by (change (inject_Z 2622) with (2622 # 1)%Q; lra).
    rewrite <- Zlt_Qlt in H. lia.
Qed.

Lemma weight_kg_of_range (raw : Z) :
  (0 <= weight_kg_of raw <= 2621 # 10)%Q.
Proof.
  unfold weight_kg_of.
  destruct (weight_mask_split raw) as (Hm & _ & _).
  pose proof (round_hundredths_range _ Hm) as Hn.
  unfold truediv at 1. unfold Qle, Qdiv, Qmult, Qinv, inject_Z. cbn. lia.
Qed.

(** X3.  The weight that the parser computes is never negative and never
    above 262.1 kg (18 bits of hundredths), so the upper bound 400 of the
    plausibility check rejects nothing: a weight attempt is accepted exactly
    when its weight is at least 5 kg. *)
Theorem weight_upper_bound_unreachable (payload : bytes) :
  py_getitem payload KNOWN_TYPE_OFFSET = Ok x0d ->
  exists r a w,
    parse_laica_manufacturer_data payload = Ok r
    /\ attempts r = [a]
    /\ dict_get a "weight_kg" = Some (VFloat w)
    /\ (0 <= w <= 2621 # 10)%Q
    /\ (dict_get a "status" = Some (VStr "accepted") <-> (5 <= w)%Q)
    /\ (parsed r <> None <-> (5 <= w)%Q).
Proof.
  intros Hget.
  destruct (parse_weight payload x0d Hget eq_refl)
    as (tb & hex & raw & _ & _ & _ & _ & Hp).
  pose proof (weight_kg_of_range raw) as [Hw0 Hw1].
  exists (report_of payload (weight_outcome tb hex raw)),
         (snd (weight_outcome tb hex raw)), (weight_kg_of raw).
  split; [exact Hp|]. split; [reflexivity|]. unfold weight_outcome.
  destruct (weight_plausible raw) eqn:Hpl;
    cbn [report_of parsed attempts fst snd].
  - apply weight_plausible_iff in Hpl. destruct Hpl as [H5 _].
    split; [reflexivity|]. split; [split; assumption|].
    split; (split; [intros _; exact H5|intros _]);
      [reflexivity|discriminate].
  - assert (~ (5 <= weight_kg_of raw)%Q) as Hlow.
    { intros H5.
      assert (weight_plausible raw = true) as Ht; [|congruence].
      apply weight_plausible_iff. split; [exact H5|].
      apply (Qle_trans _ _ _ Hw1). discriminate. }
    split; [reflexivity|]. split; [split; assumption|].
    split; (split; [|intros H5; contradiction]).
    + discriminate.
    + intros H. contradiction H. reflexivity.
Qed.

Lemma weight_upper_bound_unreachable_witness :
  exists r a w,
    parse_laica_manufacturer_data reference_payload = Ok r
    /\ attempts r = [a]
    /\ dict_get a "weight_kg" = Some (VFloat w)
    /\ (w <= 2621 # 10)%Q.
Proof.
  destruct (weight_upper_bound_unreachable reference_payload eq_refl)
    as (r & a & w & Hp & Ha & Hw & [_ Hle] & _).
  exists r, a, w. repeat split; assumption.
Defined.

(** ** Which bytes the parser reads *)

Lemma known_layout_window (s : bytes) :
  10 < len s ->
  py_slice s 6 10 = firstn 4 (py_slice s 6 11)
  /\ py_slice s 6 8 = firstn 2 (py_slice s 6 11)
  /\ forall b, py_getitem s KNOWN_TYPE_OFFSET = Ok b
               <-> nth_error (py_slice s 6 11) 4 = Some b.
Proof.
  intros Hlen. rewrite !py_slice_in_range by lia.
  change (Z.to_nat (10 - 6)) with 4%nat.
  change (Z.to_nat (8 - 6)) with 2%nat.
  change (Z.to_nat (11 - 6)) with 5%nat.
  rewrite !firstn_firstn. cbn [Nat.min].
  split; [reflexivity|]. split; [reflexivity|].
  intros b. rewrite py_getitem_Ok by (unfold KNOWN_TYPE_OFFSET; lia).
  rewrite nth_error_firstn. cbn [Nat.ltb Nat.leb].
  rewrite nth_error_skipn. reflexivity.
Qed.

(** X4.  Of a payload of more than 10 bytes the parser reads bytes 6..10
    only: two such payloads that agree on these five bytes get the same
    parsed packet and the same attempts, whatever their other bytes and
    their lengths. *)
Theorem parse_reads_bytes_6_to_10_only (p q : bytes) :
  10 < len p -> 10 < len q ->
  py_slice p 6 11 = py_slice q 6 11 ->
  exists rp rq,
    parse_laica_manufacturer_data p = Ok rp
    /\ parse_laica_manufacturer_data q = Ok rq
    /\ parsed rp = parsed rq
    /\ attempts rp = attempts rq.
Proof.
  intros Hp Hq Hwin.
  destruct (known_layout_window p Hp) as (Hp4 & Hp2 & Hpb).
  destruct (known_layout_window q Hq) as (Hq4 & Hq2 & Hqb).
  rewrite Hwin in Hp4, Hp2, Hpb. rewrite <- Hq4 in Hp4. rewrite <- Hq2 in Hp2.
  destruct (py_getitem_total p KNOWN_TYPE_OFFSET) as [b Hb];
    [unfold KNOWN_TYPE_OFFSET; lia|].
  assert (py_getitem q KNOWN_TYPE_OFFSET = Ok b) as Hb'
    by (apply Hqb, Hpb; exact Hb).
  destruct (Z.eq_dec (byte_val b) PACKET_TYPE_WEIGHT) as [Hw|Hw].
  - destruct (parse_weight p b Hb Hw)
      as (tb & hex & raw & Htb & Hhex & Hraw & _ & Hrp).
    destruct (parse_weight q b Hb' Hw)
      as (tb' & hex' & raw' & Htb' & Hhex' & Hraw' & _ & Hrq).
    rewrite Htb in Htb'. injection Htb' as <-.
    rewrite Hp4, Hraw' in Hraw. injection Hraw as <-.
    rewrite Hhex in Hhex'. injection Hhex' as <-.
    do 2 eexists. split; [exact Hrp|]. split; [exact Hrq|].
    split; reflexivity.
  - destruct (Z.eq_dec (byte_val b) PACKET_TYPE_IMPEDANCE) as [Hi|Hi].
    + destruct (parse_impedance p b Hb Hi)
        as (tb & hex & raw & Htb & Hhex & Hraw & _ & Hrp).
      destruct (parse_impedance q b Hb' Hi)
        as (tb' & hex' & raw' & Htb' & Hhex' & Hraw' & _ & Hrq).
      rewrite Htb in Htb'. injection Htb' as <-.
      rewrite Hp2, Hraw' in Hraw. injection Hraw as <-.
      rewrite Hhex in Hhex'. injection Hhex' as <-.
      do 2 eexists. split; [exact Hrp|]. split; [exact Hrq|].
      split; reflexivity.
    + destruct (parse_unknown_type p b Hb Hw Hi) as (tb & Htb & Hrp).
      destruct (parse_unknown_type q b Hb' Hw Hi) as (tb' & Htb' & Hrq).
      rewrite Htb in Htb'. injection Htb' as <-.
      do 2 eexists. split; [exact Hrp|]. split; [exact Hrq|].
      split; reflexivity.
Qed.

Lemma parse_reads_bytes_6_to_10_only_witness :
  exists rp rq,
    parse_laica_manufacturer_data reference_payload = Ok rp
    /\ parse_laica_manufacturer_data
         [ x00; x00; x00; x00; x00; x00; xa0; x2c; x92; x14; x0d ] = Ok rq
    /\ parsed rp = parsed rq
    /\ attempts rp = attempts rq.
Proof.
  apply (parse_reads_bytes_6_to_10_only reference_payload
           [ x00; x00; x00; x00; x00; x00; xa0; x2c; x92; x14; x0d ]);
    reflexivity.
Defined.

(** ** The echo of the payload in the report *)

Lemma bytes_hex_cons (x : byte) :
  exists c d : ascii,
    (forall b, bytes_hex (x :: b) = String c (String d (bytes_hex b)))
    /\ (forall t, fromhex (String c (String d t))
                  = rest <- fromhex t ;; Ok (x :: rest)).
Proof.
  destruct x; do 2 eexists; split; intros; reflexivity.
Qed.

Lemma fromhex_bytes_hex (b : bytes) : fromhex (bytes_hex b) = Ok b.
Proof.
  induction b as [|x b IH]; [reflexivity|].
  destruct (bytes_hex_cons x) as (c & d & Hhex & Hfrom).
  rewrite Hhex, Hfrom, IH. reflexivity.
Qed.

Lemma bytes_hex_length (b : bytes) :
  String.length (bytes_hex b) = (2 * List.length b)%nat.
Proof.
  induction b as [|x b IH]; [reflexivity|].
  destruct (bytes_hex_cons x) as (c & d & Hhex & _).
  rewrite Hhex. cbn [String.length List.length]. lia.
Qed.

(** X5.  Every report echoes its input: [payload_len] is the length of the
    payload, and [payload_hex] has two characters per byte and reads back,
    with [bytes.fromhex], as the payload itself. *)
Theorem report_echoes_payload (payload : bytes) :
  exists r,
    parse_laica_manufacturer_data payload = Ok r
    /\ payload_len r = len payload
    /\ String.length (payload_hex r) = (2 * List.length payload)%nat
    /\ fromhex (payload_hex r) = Ok payload.
Proof.
  destruct (parse_cases payload) as [r [Hp Hcase]].
  exists r. split; [exact Hp|].
  destruct Hcase; cbn [report_of payload_len payload_hex];
    (split; [reflexivity|]);
    (split; [apply bytes_hex_length|apply fromhex_bytes_hex]).
Qed.

(** ** The shape of a parsed packet *)

(** X6.  A report has a parsed packet exactly when its attempt is accepted.
    The packet then sits on the known layout (type byte at 10, value at 6),
    repeats the raw integer and its hexadecimal form of the attempt, and is
    of one of two shapes: a weight packet (type byte [0x0D], 4 value bytes)
    with weight, stability and flags and no impedance, or an impedance packet
    (type byte [0x06], 2 value bytes) with an impedance and none of the
    three weight fields. *)
Theorem parsed_packet_shape (payload : bytes) :
  exists r a,
    parse_laica_manufacturer_data payload = Ok r
    /\ attempts r = [a]
    /\ (parsed r <> None <-> dict_get a "status" = Some (VStr "accepted"))
    /\ forall p, parsed r = Some p ->
         type_byte_offset p = KNOWN_TYPE_OFFSET
         /\ value_offset p = KNOWN_VALUE_OFFSET
         /\ dict_get a "raw_decrypted_int"
            = option_map VInt (raw_decrypted_int p)
         /\ dict_get a "raw_decrypted_hex"
            = option_map VStr (raw_decrypted_hex p)
         /\ raw_decrypted_int p <> None
         /\ ((kind p = "weight"
              /\ py_getitem payload KNOWN_TYPE_OFFSET = Ok x0d
              /\ value_length p = 4
              /\ weight_kg p <> None
              /\ is_stable p <> None
              /\ raw_flags p <> None
              /\ impedance_ohm p = None)
             \/ (kind p = "impedance"
                 /\ py_getitem payload KNOWN_TYPE_OFFSET = Ok x06
                 /\ value_length p = 2
                 /\ impedance_ohm p <> None
                 /\ weight_kg p = None
                 /\ is_stable p = None
                 /\ raw_flags p = None)).
Proof.
  destruct (parse_cases payload) as [r [Hp Hcase]].
  exists r.
  destruct Hcase as [Hs|b tb hex raw Hget Hb _ _ _ _
                    |b tb hex raw Hget Hb _ _ _ _|b tb _ _ _ _].
  - eexists. split; [exact Hp|]. split; [reflexivity|].
    cbn [report_of parsed fst]. split.
    + split; [intros H; contradiction H; reflexivity|discriminate].
    + discriminate.
  - apply (byte_val_inj b x0d) in Hb. subst b.
    eexists. split; [exact Hp|]. split; [reflexivity|].
    unfold weight_outcome.
    destruct (weight_plausible raw); cbn [report_of parsed fst snd].
    + split; [split; [reflexivity|discriminate]|].
      intros p Hparsed. injection Hparsed as <-.
      do 4 (split; [reflexivity|]). split; [discriminate|].
      left. split; [reflexivity|]. split; [exact Hget|].
      split; [reflexivity|]. repeat split; discriminate.
    + split; [|discriminate].
      split; [intros H; contradiction H; reflexivity|discriminate].
  - apply (byte_val_inj b x06) in Hb. subst b.
    eexists. split; [exact Hp|]. split; [reflexivity|].
    unfold impedance_outcome.
    destruct (impedance_plausible raw); cbn [report_of parsed fst snd].
    + split; [split; [reflexivity|discriminate]|].
      intros p Hparsed. injection Hparsed as <-.
      do 4 (split; [reflexivity|]). split; [discriminate|].
      right. split; [reflexivity|]. split; [exact Hget|].
      split; [reflexivity|]. split; [discriminate|].
      repeat split; reflexivity.
    + split; [|discriminate].
      split; [intros H; contradiction H; reflexivity|discriminate].
  - eexists. split; [exact Hp|]. split; [reflexivity|].
    cbn [report_of parsed fst]. split.
    + split; [intros H; contradiction H; reflexivity|discriminate].
    + discriminate.
Qed.

(** ** [_attempt_parse] on arbitrary arguments *)

Lemma py_getitem_out_of_range {A : Type} (s : list A) (i : Z) :
  i < - len s \/ len s <= i -> py_getitem s i = Raise IndexError.
Proof.
  intros Hi. unfold py_getitem.
  destruct (Z.ltb_spec i 0) as [Hneg|Hpos].
  - destruct (Z.ltb_spec (len s + i) 0) as [_|Hj]; [reflexivity|].
    pose proof (len_nonneg s). lia.
  - destruct (Z.ltb_spec i 0) as [|_]; [lia|].
    destruct (nth_error s (Z.to_nat i)) as [x|] eqn:E; [|reflexivity].
    assert (nth_error s (Z.to_nat i) <> None) as Hn by congruence.
    apply nth_error_Some in Hn. unfold len in Hi. lia.
Qed.

Lemma format_0wx_negative (w z : Z) :
  w < 0 -> format_0wx w z = Raise ValueError.
Proof.
  intros Hw. unfold format_0wx.
  destruct (Z.ltb_spec w 0); [reflexivity|lia].
Qed.

Lemma format_0wx_Ok (w z : Z) (s : string) :
  format_0wx w z = Ok s -> 0 <= w.
Proof.
  intros H. destruct (Z_lt_le_dec w 0) as [Hw|Hw]; [|exact Hw].
  rewrite format_0wx_negative in H by exact Hw. discriminate.
Qed.

Lemma value_guard_iff (payload : bytes) (vo vl : Z) :
  (vo <? 0) || (vo + vl >? len payload) = false
  <-> 0 <= vo /\ vo + vl <= len payload.
Proof.
  rewrite orb_false_iff, Z.ltb_ge, Z.gtb_ltb, Z.ltb_ge. reflexivity.
Qed.

(** X7.  [_attempt_parse] reads the type byte before anything else: with a
    type offset outside the payload (in particular on the empty payload) it
    raises [IndexError] and returns no attempt, whatever its other
    arguments. *)
Theorem attempt_parse_type_offset_out_of_range
    (payload : bytes) (k : string) (type_offset vo vl : Z) (scheme : string) :
  type_offset < - len payload \/ len payload <= type_offset ->
  _attempt_parse payload k type_offset vo vl scheme = Raise IndexError.
Proof.
  intros Hto. unfold _attempt_parse.
  rewrite py_getitem_out_of_range by exact Hto. reflexivity.
Qed.

Lemma attempt_parse_type_offset_out_of_range_witness :
  _attempt_parse [] "weight" KNOWN_TYPE_OFFSET KNOWN_VALUE_OFFSET 4
    "known_layout" = Raise IndexError.
Proof.
  apply attempt_parse_type_offset_out_of_range. right. vm_compute.
  discriminate.
Defined.

(** X8.  With a readable type byte, a value range that starts before the
    payload or ends after it is rejected with reason
    [value_bytes_out_of_range]: no packet, and an attempt that holds the
    arguments and nothing decoded. *)
Theorem attempt_parse_value_bytes_out_of_range
    (payload : bytes) (k : string) (type_offset vo vl : Z) (scheme : string)
    (b : byte) :
  py_getitem payload type_offset = Ok b ->
  vo < 0 \/ len payload < vo + vl ->
  exists tb,
    format_0wx 2 (byte_val b) = Ok tb
    /\ _attempt_parse payload k type_offset vo vl scheme
       = Ok (None,
             [ ("kind", VStr k);
               ("type_offset", VInt type_offset);
               ("type_byte", VStr ("0x" ++ tb));
               ("value_offset", VInt vo);
               ("value_length", VInt vl);
               ("scheme", VStr scheme);
               ("status", VStr "rejected");
               ("reason", VStr "value_bytes_out_of_range") ]).
Proof.
  intros Hget Hout.
  destruct (format_0wx_total 2 (byte_val b)) as [tb Htb]; [lia|].
  exists tb. split; [exact Htb|].
  unfold _attempt_parse. rewrite Hget. cbn [bind]. rewrite Htb. cbn [bind].
  destruct ((vo <? 0) || (vo + vl >? len payload)) eqn:Hguard;
    [reflexivity|].
  apply value_guard_iff in Hguard. lia.
Qed.

Lemma attempt_parse_value_bytes_out_of_range_witness :
  exists a,
    _attempt_parse reference_payload "weight" 10 9 4 "probe" = Ok (None, a)
    /\ dict_get a "reason" = Some (VStr "value_bytes_out_of_range").
Proof.
  destruct (attempt_parse_value_bytes_out_of_range
              reference_payload "weight" 10 9 4 "probe" x0d eq_refl)
    as (tb & _ & H).
  - right. reflexivity.
  - eexists. split; [exact H|reflexivity].
Defined.

(** X9.  A negative value length can pass the bounds check, and for the
    kinds weight and impedance the hexadecimal rendering of the raw value,
    whose width is twice that length, then raises [ValueError]: the call
    does not return a rejected attempt. *)
Theorem attempt_parse_negative_length_raises
    (payload : bytes) (k : string) (type_offset vo vl : Z) (scheme : string)
    (b : byte) :
  py_getitem payload type_offset = Ok b ->
  0 <= vo -> vo + vl <= len payload -> vl < 0 ->
  k = "weight" \/ k = "impedance" ->
  _attempt_parse payload k type_offset vo vl scheme = Raise ValueError.
Proof.
  intros Hget Hvo Hend Hvl Hk.
  destruct (format_0wx_total 2 (byte_val b)) as [tb Htb]; [lia|].
  destruct (decrypt_to_int_total (py_slice payload vo (vo + vl)))
    as [raw [Hraw _]].
  unfold _attempt_parse. rewrite Hget. cbn [bind]. rewrite Htb. cbn [bind].
  rewrite (proj2 (value_guard_iff payload vo vl)) by (split; assumption).
  rewrite Hraw. cbn [bind].
  rewrite (format_0wx_negative (vl * 2) raw) by lia.
  destruct Hk as [-> | ->]; reflexivity.
Qed.

Lemma attempt_parse_negative_length_raises_witness :
  _attempt_parse reference_payload "weight" 10 6 (-1) "probe"
  = Raise ValueError.
Proof.
  apply (attempt_parse_negative_length_raises
           reference_payload "weight" 10 6 (-1) "probe" x0d);
    [reflexivity|lia|vm_compute; discriminate|lia|left; reflexivity].
Defined.

(** X10.  A kind other than ["weight"] and ["impedance"] is rejected with
    reason [unknown_kind] once the bounds check has passed: no packet, and
    an attempt without any decoded field. *)
Theorem attempt_parse_unknown_kind
    (payload : bytes) (k : string) (type_offset vo vl : Z) (scheme : string)
    (b : byte) :
  py_getitem payload type_offset = Ok b ->
  0 <= vo -> vo + vl <= len payload ->
  k <> "weight" -> k <> "impedance" ->
  exists tb,
    format_0wx 2 (byte_val b) = Ok tb
    /\ _attempt_parse payload k type_offset vo vl scheme
       = Ok (None,
             [ ("kind", VStr k);
               ("type_offset", VInt type_offset);
               ("type_byte", VStr ("0x" ++ tb));
               ("value_offset", VInt vo);
               ("value_length", VInt vl);
               ("scheme", VStr scheme);
               ("status", VStr "rejected");
               ("reason", VStr "unknown_kind") ]).
Proof.
  intros Hget Hvo Hend Hw Hi.
  destruct (format_0wx_total 2 (byte_val b)) as [tb Htb]; [lia|].
  destruct (decrypt_to_int_total (py_slice payload vo (vo + vl)))
    as [raw [Hraw _]].
  exists tb. split; [exact Htb|].
  unfold _attempt_parse. rewrite Hget. cbn [bind]. rewrite Htb. cbn [bind].
  rewrite (proj2 (value_guard_iff payload vo vl)) by (split; assumption).
  rewrite Hraw. cbn [bind].
  destruct (String.eqb_spec k "weight") as [|_]; [contradiction|].
  destruct (String.eqb_spec k "impedance") as [|_]; [contradiction|].
  reflexivity.
Qed.

Lemma attempt_parse_unknown_kind_witness :
  exists a,
    _attempt_parse reference_payload "height" 10 6 4 "probe" = Ok (None, a)
    /\ dict_get a "reason" = Some (VStr "unknown_kind").
Proof.
  destruct (attempt_parse_unknown_kind
              reference_payload "height" 10 6 4 "probe" x0d eq_refl)
    as (tb & _ & H); try (vm_compute; discriminate).
  eexists. split; [exact H|reflexivity].
Defined.

Ltac attempt_step H :=
  match type of H with
  | bind ?c _ = _ =>
      let E := fresh "E" in
      destruct c eqn:E; cbn [bind] in H; [|discriminate H]
  end.

(** X11.  Whatever its arguments, a call of [_attempt_parse] that returns
    gives either a packet with an accepted attempt or no packet with a
    rejected attempt that names one of four reasons.  An accepted attempt
    has its value bytes inside the payload
    ([0 <= value_offset], [0 <= value_length],
    [value_offset + value_length <= len(payload)]), and the packet repeats
    the kind and the three offsets of the call. *)
Theorem attempt_parse_outcome_invariant
    (payload : bytes) (k : string) (type_offset vo vl : Z) (scheme : string)
    (o : option LaicaParsedPacket) (a : dict) :
  _attempt_parse payload k type_offset vo vl scheme = Ok (o, a) ->
  (exists p,
      o = Some p
      /\ dict_get a "status" = Some (VStr "accepted")
      /\ dict_get a "reason" = Some VNone
      /\ 0 <= vo /\ 0 <= vl /\ vo + vl <= len payload
      /\ kind p = k
      /\ (k = "weight" \/ k = "impedance")
      /\ type_byte_offset p = type_offset
      /\ value_offset p = vo
      /\ value_length p = vl)
  \/ (o = None
      /\ dict_get a "status" = Some (VStr "rejected")
      /\ exists reason,
           dict_get a "reason" = Some (VStr reason)
           /\ In reason [ "value_bytes_out_of_range"; "weight_out_of_range";
                          "impedance_out_of_range"; "unknown_kind" ]).
Proof.
  intros H. unfold _attempt_parse in H.
  attempt_step H. attempt_step H.
  destruct ((vo <? 0) || (vo + vl >? len payload)) eqn:Hguard.
  { injection H as <- <-. right. split; [reflexivity|].
    split; [reflexivity|]. eexists. split; [reflexivity|].
    cbn [In]. auto. }
  apply value_guard_iff in Hguard. destruct Hguard as [Hvo Hend].
  attempt_step H.
  destruct (String.eqb_spec k "weight") as [->|Hnw].
  - attempt_step H. apply format_0wx_Ok in E2.
    destruct (negb _) in H.
    + injection H as <- <-. right. split; [reflexivity|].
      split; [reflexivity|]. eexists. split; [reflexivity|].
      cbn [In]. auto.
    + cbn [bind] in H. injection H as <- <-. left. eexists.
      split; [reflexivity|]. cbn [kind type_byte_offset value_offset
                                  value_length].
      repeat split; try reflexivity; try lia. left. reflexivity.
  - destruct (String.eqb_spec k "impedance") as [->|Hni].
    + attempt_step H. apply format_0wx_Ok in E2.
      destruct (negb _) in H.
      * injection H as <- <-. right. split; [reflexivity|].
        split; [reflexivity|]. eexists. split; [reflexivity|].
        cbn [In]. auto.
      * cbn [bind] in H. injection H as <- <-. left. eexists.
        split; [reflexivity|]. cbn [kind type_byte_offset value_offset
                                    value_length].
        repeat split; try reflexivity; try lia. right. reflexivity.
    + injection H as <- <-. right. split; [reflexivity|].
      split; [reflexivity|]. eexists. split; [reflexivity|].
      cbn [In]. auto 6.
Qed.

Lemma attempt_parse_outcome_invariant_witness :
  exists p a,
    _attempt_parse reference_payload "weight" 10 6 4 "known_layout"
    = Ok (Some p, a)
    /\ 6 + 4 <= len reference_payload
    /\ value_length p = 4.
Proof.
  eexists. eexists. split; [vm_compute; reflexivity|].
  edestruct (attempt_parse_outcome_invariant
               reference_payload "weight" 10 6 4 "known_layout")
    as [(p & Hp & _ & _ & _ & _ & Hend & _ & _ & _ & _ & Hvl)
       |(Hnone & _)]; [vm_compute; reflexivity| |discriminate Hnone].
  injection Hp as <-. split; [exact Hend|reflexivity].
Defined.

(** ** scripts/in_vitro_test.py: [_extract_laica_payload_from_hci_event] *)

Lemma starts_with_iff (m s : bytes) :
  starts_with m s = true <-> exists t, s = (m ++ t)%list.
Proof.
  revert s. induction m as [|x m IH]; intros s; cbn [starts_with].
  - split; [intros _; exists s; reflexivity|reflexivity].
  - destruct s as [|y s].
    + split; [discriminate|]. intros [t Ht]. discriminate.
    + rewrite andb_true_iff, Z.eqb_eq, IH. split.
      * intros [Hxy [t ->]]. apply byte_val_inj in Hxy. subst y.
        exists t. reflexivity.
      * intros [t Ht]. cbn [app] in Ht. injection Ht as -> ->.
        split; [reflexivity|]. exists t. reflexivity.
Qed.

(** [find_from i m s] is [-1] when [m] does not occur in [s], and otherwise
    [i] plus the length of the shortest prefix before an occurrence. *)
Lemma find_from_spec (m s : bytes) (i : Z) :
  0 <= i ->
  (find_from i m s = -1
   /\ forall pre suf, s <> (pre ++ m ++ suf)%list)
  \/ (exists pre suf,
        s = (pre ++ m ++ suf)%list
        /\ find_from i m s = i + len pre
        /\ forall pre' suf', s = (pre' ++ m ++ suf')%list ->
             (List.length pre <= List.length pre')%nat).
Proof.
  revert i. induction s as [|x s IH]; intros i Hi.
  - cbn [find_from]. destruct (starts_with m []) eqn:Hsw.
    + right. apply starts_with_iff in Hsw. destruct Hsw as [t Ht].
      exists [], t. split; [exact Ht|].
      split; [rewrite len_nil; lia|]. intros; cbn; lia.
    + left. split; [reflexivity|]. intros pre suf Heq.
      destruct pre; [|discriminate].
      assert (starts_with m [] = true) as Ht; [|congruence].
      apply starts_with_iff. exists suf. exact Heq.
  - cbn [find_from]. destruct (starts_with m (x :: s)) eqn:Hsw.
    + right. apply starts_with_iff in Hsw. destruct Hsw as [t Ht].
      exists [], t. split; [exact Ht|].
      split; [rewrite len_nil; lia|]. intros; cbn; lia.
    + assert (forall suf, x :: s <> (m ++ suf)%list) as Hhead.
      { intros suf Heq.
        assert (starts_with m (x :: s) = true) as Ht; [|congruence].
        apply starts_with_iff. exists suf. exact Heq. }
      destruct (IH (i + 1)) as [[Hnone Habs]|(pre & suf & Heq & Hk & Hmin)];
        [lia| |].
      * left. split; [exact Hnone|]. intros [|y pre] suf Heq.
        -- apply (Hhead suf). exact Heq.
        -- cbn [app] in Heq. injection Heq as _ Heq.
           apply (Habs pre suf). exact Heq.
      * right. exists (x :: pre), suf. split; [cbn [app]; congruence|].
        split; [rewrite Hk, len_cons; lia|].
        intros [|y pre'] suf' Heq'.
        -- exfalso. apply (Hhead suf'). exact Heq'.
        -- cbn [app] in Heq'. injection Heq' as _ Heq'.
           apply Hmin in Heq'. cbn [List.length]. lia.
Qed.

Lemma slice_after_prefix (pre rest : bytes) (n : Z) :
  0 <= n ->
  py_slice (pre ++ rest)%list (len pre) (len pre + n)
  = firstn (Z.to_nat n) rest.
Proof.
  intros Hn. unfold py_slice, slice_bound.
  assert (len (pre ++ rest)%list = len pre + len rest) as Hl
    by (unfold len; rewrite length_app; lia).
  pose proof (len_nonneg pre). pose proof (len_nonneg rest).
  destruct (Z.ltb_spec (len pre) 0); [lia|].
  destruct (Z.ltb_spec (len pre + n) 0); [lia|].
  rewrite Hl, (Z.min_l (len pre)) by lia.
  replace (Z.to_nat (len pre)) with (List.length pre) by (unfold len; lia).
  rewrite skipn_app, skipn_all, Nat.sub_diag. cbn [skipn app].
  destruct (Z.min_spec (len pre + n) (len pre + len rest))
    as [[_ ->]|[Hge ->]].
  - f_equal. lia.
  - replace (len pre + len rest - len pre) with (len rest) by lia.
    unfold len. rewrite Nat2Z.id, firstn_all.
    symmetry. apply firstn_all2. unfold len in Hge. lia.
Qed.

Lemma extract_at_first_marker (pre rest : bytes) :
  (forall pre' suf',
      (pre ++ [ x0f; xff; xac; xa0 ] ++ rest)%list
      = (pre' ++ [ x0f; xff; xac; xa0 ] ++ suf')%list ->
      (List.length pre <= List.length pre')%nat) ->
  _extract_laica_payload_from_hci_event
    (pre ++ [ x0f; xff; xac; xa0 ] ++ rest)%list
  = if negb (len (firstn 12 rest) =? 12) then Raise ValueError
    else Ok (firstn 12 rest).
Proof.
  intros Hfirst. unfold _extract_laica_payload_from_hci_event. cbn zeta.
  destruct (find_from_spec [ x0f; xff; xac; xa0 ]
              (pre ++ [ x0f; xff; xac; xa0 ] ++ rest)%list 0)
    as [[_ Habs]|(pre0 & suf0 & Heq & Hk & Hmin)]; [lia| |].
  - exfalso. apply (Habs pre rest). reflexivity.
  - assert (len pre0 = len pre) as Hlen.
    { pose proof (Hfirst pre0 suf0 Heq).
      pose proof (Hmin pre rest eq_refl). unfold len. lia. }
    rewrite Hk, Hlen. pose proof (len_nonneg pre).
    destruct (Z.eqb_spec (0 + len pre) (-1)) as [|_]; [lia|].
    change (len [ x0f; xff; xac; xa0 ]) with 4.
    replace (0 + len pre + 4)
      with (len (pre ++ [ x0f; xff; xac; xa0 ])%list)
      by (unfold len; rewrite length_app; cbn [List.length]; lia).
    rewrite (app_assoc pre [ x0f; xff; xac; xa0 ] rest).
    rewrite slice_after_prefix by lia. reflexivity.
Qed.

(** X12.  [_extract_laica_payload_from_hci_event] returns [payload] exactly
    when the event is [pre ++ 0f ff ac a0 ++ payload ++ suf] with [payload]
    of 12 bytes and this occurrence of the marker the first one; in every
    other case (no marker, or fewer than 12 bytes after its first
    occurrence) it raises [ValueError]. *)
Theorem extract_payload_spec (hci : bytes) :
  (forall payload,
      _extract_laica_payload_from_hci_event hci = Ok payload
      <-> exists pre suf,
            hci = (pre ++ [ x0f; xff; xac; xa0 ] ++ payload ++ suf)%list
            /\ len payload = 12
            /\ forall pre' suf',
                 hci = (pre' ++ [ x0f; xff; xac; xa0 ] ++ suf')%list ->
                 (List.length pre <= List.length pre')%nat)
  /\ ((exists payload, _extract_laica_payload_from_hci_event hci = Ok payload)
      \/ _extract_laica_payload_from_hci_event hci = Raise ValueError).
Proof.
  split.
  - intros payload. split.
    + intros Hok.
      destruct (find_from_spec [ x0f; xff; xac; xa0 ] hci 0)
        as [[Hnone _]|(pre & rest & Heq & _ & Hmin)]; [lia| |].
      * unfold _extract_laica_payload_from_hci_event in Hok.
        cbn zeta in Hok. rewrite Hnone in Hok. discriminate.
      * subst hci. rewrite extract_at_first_marker in Hok by exact Hmin.
        destruct (Z.eqb_spec (len (firstn 12 rest)) 12) as [H12|];
          [|discriminate].
        cbn [negb] in Hok.
        assert (payload = firstn 12 rest) as -> by congruence.
        exists pre, (skipn 12 rest). rewrite firstn_skipn.
        split; [reflexivity|]. split; [exact H12|exact Hmin].
    + intros (pre & suf & -> & H12 & Hmin).
      rewrite extract_at_first_marker by exact Hmin.
      assert (firstn 12 (payload ++ suf)%list = payload) as ->.
      { replace 12%nat with (List.length payload + 0)%nat
          by (unfold len in H12; lia).
        rewrite firstn_app_2. cbn [firstn]. apply app_nil_r. }
      rewrite H12. reflexivity.
  - unfold _extract_laica_payload_from_hci_event. cbn zeta.
    destruct (_ =? -1); [right; reflexivity|].
    destruct (negb _); [right; reflexivity|].
    left. eexists. reflexivity.
Qed.

Lemma extract_payload_spec_witness :
  exists pre suf,
    hci_event
    = (pre ++ [ x0f; xff; xac; xa0 ] ++ reference_payload ++ suf)%list
    /\ List.length pre = 21%nat.
Proof.
  destruct (extract_payload_spec hci_event) as [Hiff _].
  destruct (proj1 (Hiff reference_payload) eq_refl)
    as (pre & suf & Heq & _ & Hmin).
  exists pre, suf. split; [exact Heq|].
  pose proof (Hmin (firstn 21 hci_event) (skipn 25 hci_event) eq_refl) as Hle.
  cbn [firstn hci_event List.length] in Hle.
  destruct (Nat.eq_dec (List.length pre) 21) as [E|E]; [exact E|].
  exfalso.
  assert (List.length pre < 21)%nat as Hlt by lia.
  clear Hle E Hmin Hiff.
  do 21 (destruct pre as [|? pre]; [vm_compute in Heq; discriminate Heq|]).
  cbn [List.length] in Hlt. lia.
Defined.

(** ** const.py *)

Lemma append_injective (p a b : string) :
  (p ++ a)%string = (p ++ b)%string -> a = b.
Proof.
  induction p as [|c p IH]; cbn [append]; intros H; [exact H|].
  injection H as H. apply IH. exact H.
Qed.

(** X13.  Dispatcher signals do not collide: entries with different ids
    have different signal names. *)
Theorem update_signal_injective (a b : string) :
  a <> b -> update_signal a <> update_signal b.
Proof.
  unfold update_signal. intros Hne H. apply Hne.
  apply append_injective in H. apply append_injective in H. exact H.
Qed.

Lemma update_signal_injective_witness :
  update_signal "scale_1" <> update_signal "scale_2".
Proof.
  apply (update_signal_injective "scale_1" "scale_2"). discriminate.
Defined.

(** ** Reading and writing measurements *)

Lemma dict_get_set_same (k : string) (v : PyVal) (d : dict) :
  dict_get (dict_set k v d) k = Some v.
Proof.
  induction d as [|[k' v'] d IH]; cbn [dict_set dict_get].
  - rewrite String.eqb_refl. reflexivity.
  - destruct (String.eqb_spec k k') as [->|Hne]; cbn [dict_get].
    + rewrite String.eqb_refl. reflexivity.
    + destruct (String.eqb_spec k k') as [|_]; [contradiction|]. exact IH.
Qed.

Lemma dict_get_set_other (k k' : string) (v : PyVal) (d : dict) :
  k <> k' -> dict_get (dict_set k v d) k' = dict_get d k'.
Proof.
  intros Hne. induction d as [|[k0 v0] d IH]; cbn [dict_set dict_get].
  - destruct (String.eqb_spec k' k) as [->|_]; [contradiction|reflexivity].
  - destruct (String.eqb_spec k k0) as [->|Hk]; cbn [dict_get].
    + destruct (String.eqb_spec k' k0) as [->|_]; [contradiction|].
      reflexivity.
    + rewrite IH. reflexivity.
Qed.

Ltac dict_lookup :=
  repeat first
    [ rewrite dict_get_set_same
    | rewrite dict_get_set_other by discriminate ].

Section Measurements.

Variable isoformat : Z -> string.
Variables (m : dict) (r : LaicaParseReport) (now : Z).

Lemma store_weight_kg :
  dict_get (store_measurements isoformat m r now) "weight_kg"
  = match parsed r with
    | Some p =>
        match weight_kg p, is_stable p with
        | Some w, Some true => Some (VFloat w)
        | _, _ => dict_get m "weight_kg"
        end
    | None => dict_get m "weight_kg"
    end.
Proof.
  unfold store_measurements.
  destruct (parsed r) as [p|]; [|reflexivity].
  destruct (weight_kg p), (is_stable p) as [[|]|], (impedance_ohm p);
    dict_lookup; reflexivity.
Qed.

Lemma store_impedance_ohm :
  dict_get (store_measurements isoformat m r now) "impedance_ohm"
  = match parsed r with
    | Some p =>
        match impedance_ohm p with
        | Some z => Some (VInt z)
        | None => dict_get m "impedance_ohm"
        end
    | None => dict_get m "impedance_ohm"
    end.
Proof.
  unfold store_measurements.
  destruct (parsed r) as [p|]; [|reflexivity].
  destruct (weight_kg p), (is_stable p) as [[|]|], (impedance_ohm p);
    dict_lookup; reflexivity.
Qed.

Lemma store_weight_attributes :
  forall p w, parsed r = Some p -> weight_kg p = Some w ->
    let m' := store_measurements isoformat m r now in
    dict_get m' "weight_kg_raw" = Some (VFloat w)
    /\ dict_get m' "weight_is_stable" = Some (opt_val VBool (is_stable p))
    /\ dict_get m' "weight_raw_flags"
       = Some (match raw_flags p with
               | None => VNone
               | Some f => VStr ("0x" ++ format_x f)
               end).
Proof.
  intros p w Hp Hw. cbn zeta. unfold store_measurements. rewrite Hp, Hw.
  destruct (is_stable p) as [[|]|], (impedance_ohm p);
    dict_lookup; repeat split; reflexivity.
Qed.

Lemma store_keeps_weight_attributes :
  forall p, parsed r = Some p -> weight_kg p = None ->
    forall k, In k [ "weight_kg"; "weight_kg_raw"; "weight_is_stable";
                     "weight_raw_flags" ] ->
      dict_get (store_measurements isoformat m r now) k = dict_get m k.
Proof.
  intros p Hp Hw k Hk. unfold store_measurements. rewrite Hp, Hw.
  cbn [In] in Hk.
  destruct Hk as [<-|[<-|[<-|[<-|[]]]]];
    destruct (impedance_ohm p); dict_lookup; reflexivity.
Qed.

End Measurements.

(** ** __init__.py and sensor.py: one advertisement *)

Section Callback.

Variable isoformat : Z -> string.
Variables (e : EntryData) (service_info : ServiceInfo) (now : Z).

(** X14.  The callback never raises.  Without manufacturer data for the
    Laica company id it changes nothing and sends no update; with such data,
    decodable or not, it sends an update, records an echo of the payload in
    the last parse report, and sets [last_seen] to now, so that the entities
    are available for the next 24 hours and no longer. *)
Theorem callback_outcome :
  exists e' dispatched,
    _async_bluetooth_callback isoformat e service_info now
    = Ok (e', dispatched)
    /\ match manufacturer_get (manufacturer_data service_info)
               MANUFACTURER_ID with
       | None => dispatched = false /\ e' = e
       | Some payload =>
           dispatched = true
           /\ last_seen e' = Some now
           /\ (forall t, available (Some e') t = true
                         <-> t - now <= 24 * 3600 * 1000000)
           /\ exists lpr,
                last_parse_report e' = Some lpr
                /\ lpr_payload_len lpr = len payload
                /\ fromhex (lpr_payload_hex lpr) = Ok payload
                /\ (lpr_parsed lpr = None
                    -> last_measurements e' = last_measurements e)
       end.
Proof.
  unfold _async_bluetooth_callback.
  destruct (manufacturer_get _ _) as [payload|].
  - destruct (parse_cases payload) as [r [Hp Hcase]].
    rewrite Hp. cbn [bind]. do 2 eexists. split; [reflexivity|].
    split; [reflexivity|]. split; [reflexivity|]. split.
    + intros t. cbn [available last_seen]. apply Z.leb_le.
    + eexists. split; [reflexivity|].
      cbn [lpr_payload_len lpr_payload_hex lpr_parsed last_measurements].
      destruct Hcase; cbn [report_of payload_len payload_hex];
        (split; [reflexivity|]); (split; [apply fromhex_bytes_hex|]);
        unfold store_measurements;
        (destruct (parsed _); [discriminate|reflexivity]).
  - do 2 eexists. split; [reflexivity|]. split; reflexivity.
Qed.

(** X15.  An advertisement whose payload decodes to a weight of at least
    5 kg: the weight sensor takes the new weight when the stable bit is set
    ([raw >= 0x80000000]) and keeps its value otherwise; in both cases the
    raw weight, the stability and the flags become the sensor's attributes,
    and the impedance sensor keeps its value. *)
Theorem weight_advertisement (payload : bytes) (raw : Z) :
  manufacturer_get (manufacturer_data service_info) MANUFACTURER_ID
  = Some payload ->
  py_getitem payload KNOWN_TYPE_OFFSET = Ok x0d ->
  _decrypt_to_int
    (py_slice payload KNOWN_VALUE_OFFSET (KNOWN_VALUE_OFFSET + 4)) = Ok raw ->
  let w := truediv (round (truediv (Z.land raw WEIGHT_VALUE_MASK) 100)) 10 in
  (5 <= w)%Q ->
  exists e',
    _async_bluetooth_callback isoformat e service_info now = Ok (e', true)
    /\ (0x80000000 <= raw -> weight_native_value (Some e') = VFloat w)
    /\ (raw < 0x80000000 ->
        weight_native_value (Some e') = weight_native_value (Some e))
    /\ impedance_native_value (Some e') = impedance_native_value (Some e)
    /\ extra_state_attributes (Some e')
       = Some [ ("raw_weight_kg", VFloat w);
                ("is_stable", VBool (0x80000000 <=? raw));
                ("raw_flags",
                 VStr ("0x"
                       ++ format_x (Z.land raw (Z.lnot WEIGHT_VALUE_MASK))))
              ].
Proof.
  intros Hm Hget Hraw w Hw.
  destruct (parse_weight payload x0d Hget eq_refl)
    as (tb & hex & raw' & _ & _ & Hraw' & Hr & Hp).
  change (KNOWN_VALUE_OFFSET + 4) with 10 in Hraw.
  change KNOWN_VALUE_OFFSET with 6 in Hraw.
  rewrite Hraw in Hraw'. injection Hraw' as <-.
  assert (weight_plausible raw = true) as Hpl.
  { apply weight_plausible_iff. split; [exact Hw|].
    apply (Qle_trans _ (2621 # 10)); [apply weight_kg_of_range|].
    discriminate. }
  unfold weight_outcome in Hp. rewrite Hpl in Hp.
  unfold _async_bluetooth_callback. rewrite Hm, Hp. cbn [bind].
  eexists. split; [reflexivity|].
  unfold weight_native_value, impedance_native_value,
    extra_state_attributes, dict_get_or_none.
  cbn [entry_measurements last_measurements].
  rewrite store_weight_kg, store_impedance_ohm.
  destruct (store_weight_attributes isoformat (last_measurements e)
              (report_of payload
                 (Some (weight_packet hex raw),
                  weight_attempt tb hex raw "accepted" VNone))
              now (weight_packet hex raw) (weight_kg_of raw)
              eq_refl eq_refl) as (Hkraw & Hkstable & Hkflags).
  cbn zeta in Hkraw, Hkstable, Hkflags.
  rewrite Hkraw, Hkstable, Hkflags.
  cbn [report_of parsed fst weight_packet weight_kg is_stable impedance_ohm
       raw_flags opt_val].
  rewrite (stable_bit_is_top_bit raw Hr).
  change (2 ^ 31) with 2147483648.
  split; [|split; [|split; [reflexivity|reflexivity]]].
  - intros Hs. destruct (Z.leb_spec 2147483648 raw); [reflexivity|lia].
  - intros Hs. destruct (Z.leb_spec 2147483648 raw); [lia|reflexivity].
Qed.

End Callback.

Lemma weight_advertisement_witness :
  exists e',
    _async_bluetooth_callback (fun _ => "ts") (setup_entry_data None)
      (sample_service_info stable_weight_payload) 0 = Ok (e', true)
    /\ exists w, weight_native_value (Some e') = VFloat w /\ (w == 13)%Q.
Proof.
  destruct (weight_advertisement (fun _ => "ts") (setup_entry_data None)
              (sample_service_info stable_weight_payload) 0
              stable_weight_payload 0x800032b4 eq_refl eq_refl eq_refl)
    as (e' & Hcb & Hstable & _).
  - vm_compute. discriminate.
  - exists e'. split; [exact Hcb|]. eexists. split; [apply Hstable; lia|].
    reflexivity.
Defined.

Section ImpedanceAdvertisement.

Variable isoformat : Z -> string.
Variables (e : EntryData) (service_info : ServiceInfo) (now : Z).

(** X16.  An advertisement whose payload decodes to an impedance reading
    within [200, 1200]: the impedance sensor takes the reading clamped to
    [430, 630], and the weight sensor keeps its value and its attributes. *)
Theorem impedance_advertisement (payload : bytes) (raw : Z) :
  manufacturer_get (manufacturer_data service_info) MANUFACTURER_ID
  = Some payload ->
  py_getitem payload KNOWN_TYPE_OFFSET = Ok x06 ->
  _decrypt_to_int
    (py_slice payload KNOWN_VALUE_OFFSET (KNOWN_VALUE_OFFSET + 2)) = Ok raw ->
  200 <= raw <= 1200 ->
  exists e',
    _async_bluetooth_callback isoformat e service_info now = Ok (e', true)
    /\ impedance_native_value (Some e') = VInt (Z.max 430 (Z.min 630 raw))
    /\ weight_native_value (Some e') = weight_native_value (Some e)
    /\ extra_state_attributes (Some e') = extra_state_attributes (Some e).
Proof.
  intros Hm Hget Hraw Hin.
  destruct (parse_impedance payload x06 Hget eq_refl)
    as (tb & hex & raw' & _ & _ & Hraw' & _ & Hp).
  change (KNOWN_VALUE_OFFSET + 2) with 8 in Hraw.
  change KNOWN_VALUE_OFFSET with 6 in Hraw.
  rewrite Hraw in Hraw'. injection Hraw' as <-.
  assert (impedance_plausible raw = true) as Hpl
    by (apply impedance_reading_cases; exact Hin).
  unfold impedance_outcome in Hp. rewrite Hpl in Hp.
  unfold _async_bluetooth_callback. rewrite Hm, Hp. cbn [bind].
  eexists. split; [reflexivity|].
  unfold weight_native_value, impedance_native_value,
    extra_state_attributes, dict_get_or_none.
  cbn [entry_measurements last_measurements].
  rewrite store_impedance_ohm.
  rewrite !(store_keeps_weight_attributes isoformat (last_measurements e)
              (report_of payload
                 (Some (impedance_packet hex raw),
                  impedance_attempt tb hex raw "accepted" VNone))
              now (impedance_packet hex raw) eq_refl eq_refl)
    by (cbn [In]; auto).
  repeat split; reflexivity.
Qed.

End ImpedanceAdvertisement.

Lemma impedance_advertisement_witness :
  exists e',
    _async_bluetooth_callback (fun _ => "ts") (setup_entry_data None)
      (sample_service_info impedance_300_payload) 0 = Ok (e', true)
    /\ impedance_native_value (Some e') = VInt 430.
Proof.
  destruct (impedance_advertisement (fun _ => "ts") (setup_entry_data None)
              (sample_service_info impedance_300_payload) 0
              impedance_300_payload 300 eq_refl eq_refl eq_refl)
    as (e' & Hcb & Himp & _); [lia|].
  exists e'. split; [exact Hcb|exact Himp].
Defined.

(** ** What the sensors can show *)

Section SensorRange.

Variable isoformat : Z -> string.

Lemma store_keeps_range (payload : bytes) (r : LaicaParseReport)
    (m : dict) (now : Z) :
  parse_case payload r ->
  measurements_in_range m ->
  measurements_in_range (store_measurements isoformat m r now).
Proof.
  intros Hcase [Hw Hi]. unfold measurements_in_range.
  rewrite store_weight_kg, store_impedance_ohm.
  destruct Hcase as [Hs|b tb hex raw _ _ _ _ _ _|b tb hex raw _ _ _ _ _ _
                    |b tb _ _ _ _]; cbn [report_of parsed fst];
    try (split; assumption).
  - unfold weight_outcome.
    destruct (weight_plausible raw) eqn:Hpl; cbn [fst];
      [|split; assumption].
    cbn [weight_packet weight_kg is_stable impedance_ohm].
    split; [|exact Hi].
    destruct (negb _); [|exact Hw].
    intros v Hv. injection Hv as <-. exists (weight_kg_of raw).
    split; [reflexivity|].
    apply weight_plausible_iff in Hpl. destruct Hpl as [H5 _].
    split; [exact H5|apply weight_kg_of_range].
  - unfold impedance_outcome.
    destruct (impedance_plausible raw); cbn [fst]; [|split; assumption].
    cbn [impedance_packet weight_kg is_stable impedance_ohm].
    split; [exact Hw|].
    intros v Hv. injection Hv as <-. exists (impedance_clamped raw).
    split; [reflexivity|]. apply impedance_reading_cases.
Qed.

Lemma reachable_in_range (e : EntryData) :
  reachable isoformat e -> measurements_in_range (last_measurements e).
Proof.
  induction 1 as [|e _ IH|e si now e' d _ IH Hcb].
  - split; intros v Hv; discriminate.
  - exact IH.
  - unfold _async_bluetooth_callback in Hcb.
    destruct (manufacturer_get _ _) as [payload|].
    + destruct (parse_cases payload) as [r [Hp Hcase]].
      rewrite Hp in Hcb. cbn [bind] in Hcb. injection Hcb as <- _.
      cbn [last_measurements]. apply (store_keeps_range payload); assumption.
    + injection Hcb as <- _. exact IH.
Qed.

(** X17.  In every state that an entry can reach (set up, set up again,
    any advertisements in any order), the weight sensor shows nothing or a
    weight between 5 and 262.1 kg, and the impedance sensor shows nothing or
    an impedance between 430 and 630 ohm. *)
Theorem sensors_stay_in_range (e : EntryData) :
  reachable isoformat e ->
  (weight_native_value (Some e) = VNone
   \/ exists w, weight_native_value (Some e) = VFloat w
                /\ (5 <= w <= 2621 # 10)%Q)
  /\ (impedance_native_value (Some e) = VNone
      \/ exists z, impedance_native_value (Some e) = VInt z
                   /\ 430 <= z <= 630).
Proof.
  intros Hreach. destruct (reachable_in_range e Hreach) as [Hw Hi].
  unfold weight_native_value, impedance_native_value, dict_get_or_none.
  cbn [entry_measurements].
  split.
  - destruct (dict_get (last_measurements e) "weight_kg") as [v|];
      [|left; reflexivity].
    destruct (Hw v eq_refl) as (w & -> & Hrange). right. exists w.
    split; [reflexivity|exact Hrange].
  - destruct (dict_get (last_measurements e) "impedance_ohm") as [v|];
      [|left; reflexivity].
    destruct (Hi v eq_refl) as (z & -> & Hrange). right. exists z.
    split; [reflexivity|exact Hrange].
Qed.

End SensorRange.

Lemma sensors_stay_in_range_witness :
  exists e w,
    reachable (fun _ => "ts") e
    /\ weight_native_value (Some e) = VFloat w
    /\ (5 <= w <= 2621 # 10)%Q.
Proof.
  assert (exists e',
            _async_bluetooth_callback (fun _ => "ts") (setup_entry_data None)
              (sample_service_info stable_weight_payload) 0 = Ok (e', true)
            /\ weight_native_value (Some e') <> VNone)
    as (e' & Hcb & Hshown)
    by (eexists; split; [vm_compute; reflexivity|vm_compute; discriminate]).
  assert (reachable (fun _ => "ts") e') as Hreach
    by (eapply reach_advertisement; [apply reach_setup|exact Hcb]).
  destruct (sensors_stay_in_range (fun _ => "ts") e' Hreach)
    as [[Hnone|(w & Hw & Hrange)] _]; [contradiction|].
  exists e', w. split; [exact Hreach|]. split; [exact Hw|exact Hrange].
Defined.


(** ** The weight as a function of the magnitude field *)






(** ** [_service_info_for_diagnostics] *)

(** X20.  The diagnostics snapshot loses no advertisement bytes: entry by
    entry, in order, the manufacturer data is recorded with the length of
    its bytes and a hexadecimal string that reads back as those bytes, and
    the service data with its key and such a string. *)
Theorem service_info_snapshot_keeps_bytes (service_info : ServiceInfo) :
  let snap := _service_info_for_diagnostics service_info in
  map (fun e => (fst (snd e), fromhex (snd (snd e))))
      (snap_manufacturer_data snap)
  = map (fun kv => (len (snd kv), Ok (snd kv)))
        (manufacturer_data service_info)
  /\ map (fun e => (fst e, fromhex (snd e))) (snap_service_data snap)
     = map (fun kv => (fst kv, Ok (snd kv))) (service_data service_info).
Proof.
  cbn zeta. unfold _service_info_for_diagnostics, _as_hex.
  cbn [snap_manufacturer_data snap_service_data].
  rewrite !map_map. split; apply map_ext; intros [k v]; cbn [fst snd];
    rewrite fromhex_bytes_hex; reflexivity.
Qed.

(** The event of [main] is the hexadecimal string of the script. *)
Example hci_event_fromhex :
  fromhex ("043e2b02010300a02bbe5e91a01f0201040303b0ff0fffaca0a02bbe5e91a0"
           ++ "a02c92140dbf0709414141303032d9") = Ok hci_event
  /\ fromhex "0fffaca0" = Ok [ x0f; xff; xac; xa0 ].
Proof. split; reflexivity. Qed.
